(** * worker_server: the serverless worker and its bucket downloader

    A shallow embedding of [main.py] and [model_downloader.py].

    - Python exceptions are values of [exn]; a call of the program returns,
      raises, or (in the unbounded [while True] of the listing) runs out of
      fuel.
    - The object store is an oracle: a [s3_client] gives, for each of the
      three API calls the program makes, the answer or the exception of the
      call. One client value answers the same request the same way every
      time.
    - The local file system is a finite map from paths to file contents.
      Directories are implicit and the local operations themselves
      ([os.makedirs], opening the manifest for writing) succeed; a transfer
      that fails leaves its destination as it was.
    - What the program does to its collaborators (API calls, console lines,
      directory creation, entries into [download_file]) is appended to a
      trace, in order.
    - [time.time()] is an argument of the run; the progress bar of
      [download_file] and the fixed [Config] of the client are left out. *)

From Stdlib Require Import ZArith NArith Lia Ascii.
From stdpp Require Import base option list strings gmap fin_maps.

(** ** Python values, exceptions and outcomes *)

Module Py.

(** The exception classes the program can meet.  All of them derive from
    [Exception]; only [ClientError] is [botocore.exceptions.ClientError].
    [BotoCoreError] stands for botocore's connection-level errors
    (endpoint unreachable, time-out, ...), which are not [ClientError]s. *)
Inductive exn : Type :=
| ClientError (msg : string)
| BotoCoreError (msg : string)
| AttributeError (msg : string)
| KeyError (key : string)
| OSError (msg : string)
| OtherException (msg : string).

Definition is_ClientError (e : exn) : bool :=
  match e with ClientError _ => true | _ => false end.

(** [repr] of a string without quotes, backslashes or control characters. *)
Definition repr_str (s : string) : string := "'" +:+ s +:+ "'".

(** [str(e)]: a [KeyError] renders the [repr] of the missing key, the
    other classes render their message. *)
Definition str_exn (e : exn) : string :=
  match e with
  | KeyError k => repr_str k
  | ClientError m | BotoCoreError m | AttributeError m
  | OSError m | OtherException m => m
  end.

(** The values a job can carry under ["input"]: [None], Booleans and
    strings, and any other object (numbers, lists, dictionaries) through the
    text [str] gives for it. *)
Inductive value : Type :=
| PyNone
| PyBool (b : bool)
| PyStr (s : string)
| PyObj (rendered : string).

(** [format(v)] with an empty format specification: what an f-string puts
    in place of [{v}]. *)
Definition str_value (v : value) : string :=
  match v with
  | PyNone => "None"
  | PyBool true => "True"
  | PyBool false => "False"
  | PyStr s => s
  | PyObj r => r
  end.

(** What an external call gives back: a value or an exception. *)
Inductive result (A : Type) : Type :=
| Ok (a : A)
| Err (e : exn).
Arguments Ok {A} a.
Arguments Err {A} e.

(** What a call of the program's own code comes to. [Diverge] marks a run
    that used up its fuel inside the listing loop. *)
Inductive outcome (A : Type) : Type :=
| Ret (a : A)
| Raise (e : exn)
| Diverge.
Arguments Ret {A} a.
Arguments Raise {A} e.
Arguments Diverge {A}.

(** Truthiness of an optional string: [None] and the empty string are
    falsy. *)
Definition truthy (o : option string) : bool :=
  match o with
  | Some s => negb (String.eqb s EmptyString)
  | None => false
  end.

(** Truthiness of [dict.get(k)] for a Boolean entry. *)
Definition truthy_flag (o : option bool) : bool :=
  match o with Some b => b | None => false end.

End Py.
Import Py.

(** ** [os.path.join] (posixpath) for two components *)

Module OsPath.

Definition sep : string := "/".

Definition startswith (p s : string) : bool := String.prefix p s.

Fixpoint endswith_sep (s : string) : bool :=
  match s with
  | EmptyString => false
  | String c EmptyString => Ascii.eqb c "/"%char
  | String _ rest => endswith_sep rest
  end.

(** [join(a, b)]: a component that starts with the separator discards
    everything before it. *)
Definition join (a b : string) : string :=
  if startswith sep b then b
  else if String.eqb a EmptyString || endswith_sep a then a +:+ b
  else a +:+ sep +:+ b.


(** [p] spells a path strictly below [dir]: [dir], a separator and more. On
    canonical paths this is containment. *)
Definition below (dir p : string) : bool := String.prefix (dir +:+ sep) p.

(** [s.split('/')] *)
Fixpoint split_sep (s : string) : list string :=
  match s with
  | EmptyString => [EmptyString]
  | String c rest =>
      if Ascii.eqb c "/"%char then EmptyString :: split_sep rest
      else
        match split_sep rest with
        | seg :: segs => String c seg :: segs
        | [] => [String c EmptyString]
        end
  end.

(** A segment that names an entry of its directory: not empty, not [.] and
    not [..]. *)
Definition plain_segment (seg : string) : bool :=
  negb (String.eqb seg EmptyString) && negb (String.eqb seg ".")
  && negb (String.eqb seg "..").

(** A relative path in normal form: plain segments with single separators
    between them. Two such keys name the same file below a directory only
    if they are the same string. *)
Definition plain_key (key : string) : bool :=
  forallb plain_segment (split_sep key).

(** An absolute path in normal form. *)
Definition canonical (p : string) : bool :=
  match p with
  | String c rest => Ascii.eqb c "/"%char && plain_key rest
  | EmptyString => false
  end.

End OsPath.

(** ** [main.py] *)

Module Main.

(** [CONFIG], built from the environment when the module is loaded. *)
Definition getenv_default (getenv : string → option string)
    (name default : string) : string :=
  match getenv name with Some v => v | None => default end.

Definition CONFIG (getenv : string → option string) : gmap string string :=
  <["S3_BUCKET" := getenv_default getenv "S3_BUCKET" "rd0cg4jfje"]>
  (<["S3_ENDPOINT" :=
      getenv_default getenv "S3_ENDPOINT" "https://s3api-eu-cz-1.runpod.io"]>
  (<["S3_REGION" := getenv_default getenv "S3_REGION" "eu-cz-1"]>
  (<["MODEL_PATH" := "/model"]> ∅))).

(** [d[k]] on a dictionary. *)
Definition getitem {V} (d : gmap string V) (k : string) : outcome V :=
  match d !! k with
  | Some v => Ret v
  | None => Raise (KeyError k)
  end.

(** [try: body except Exception as e: handler(e)] without state. *)
Definition try_except {A} (body : outcome A) (handler : exn → outcome A)
    : outcome A :=
  match body with
  | Raise e => handler e
  | other => other
  end.

#[export] Instance outcome_ret : MRet outcome := λ A a, Ret a.

#[export] Instance outcome_bind : MBind outcome := λ A B k m,
  match m with
  | Ret a => k a
  | Raise e => Raise e
  | Diverge => Diverge
  end.

(** [handler(job)]. *)
Definition handler (getenv : string → option string)
    (job : gmap string value) : outcome (gmap string string) :=
  try_except
    (input_data ← getitem job "input";
     model_path ← getitem (CONFIG getenv) "MODEL_PATH";
     mret (<["status" := "success"]>
          (<["model_used" := model_path]>
          (<["result" := "Processed input: " +:+ str_value input_data]>
           ∅))))
    (λ e,
     mret (<["status" := "error"]> (<["message" := str_exn e]> ∅))).

(** [initialize_worker()]: the download is commented out in the source, so
    only the credential check (a console warning) and the descriptor are
    left. The Boolean says whether the warning was printed. *)
Definition initialize_worker (getenv : string → option string)
    : bool * outcome (gmap string string) :=
  let warned :=
    negb (truthy (getenv "AWS_ACCESS_KEY_ID"))
    || negb (truthy (getenv "AWS_SECRET_ACCESS_KEY")) in
  (warned,
   model_path ← getitem (CONFIG getenv) "MODEL_PATH";
   mret (<["status" := "ready"]> (<["model_path" := model_path]> ∅))).

End Main.

(** ** [model_downloader.py] *)

Module ModelDownloader.

(** *** The object store *)

(** One entry of a listing page's [Contents]. *)
Record s3_object : Type := { Key : string; Size : N }.

(** The fields of a [list_objects_v2] response the program reads; each may
    be missing from the dictionary. *)
Record response : Type := {
  Contents : option (list s3_object);
  IsTruncated : option bool;
  NextContinuationToken : option string }.

(** The boto3 client, by what its three calls answer:
    [list_objects_v2(Bucket, ContinuationToken)],
    [head_object(Bucket, Key)] (the [ContentLength]) and
    [download_file(Bucket, Key, Filename)] (the bytes it leaves in
    [Filename]). *)
Record s3_client : Type := {
  list_objects_v2 : string → option string → result response;
  head_object : string → string → result N;
  s3_download_file : string → string → string → result N }.

(** The process environment and the client factory. *)
Record environment : Type := {
  getenv : string → option string;
  boto3_client : string → string → string → string → result s3_client }.

(** *** The local file system and the trace *)

(** [download_metadata.json]; [download_time] is the clock reading. *)
Record metadata : Type := {
  download_time : Z;
  md_bucket_name : string;
  md_endpoint_url : string;
  total_files : nat;
  successful_downloads : nat;
  failed_downloads : nat }.

(** What is found at a local path: a file of bytes fetched from the store,
    a manifest file, or a directory with the size [stat] gives for it. *)
Inductive content : Type :=
| Blob (size : N)
| Manifest (m : metadata)
| Directory (size : N).

(** The console lines of [model_downloader.py]. *)
Inductive message : Type :=
| Msg_credentials_not_found
| Msg_credentials_hint
| Msg_error_creating_client (e : exn)
| Msg_error_downloading (key : string) (e : exn)
| Msg_unexpected_error_downloading (key : string) (e : exn)
| Msg_error_listing (e : exn)
| Msg_starting (bucket : string)
| Msg_saved_to (path : string)
| Msg_listing
| Msg_no_files
| Msg_found (n : nat)
| Msg_already_exists (key : string)
| Msg_downloading (key : string)
| Msg_completed
| Msg_successful (n : nat)
| Msg_failed (n : nat).

Inductive event : Type :=
| Print (m : message)
| Makedirs (path : string)
| ListObjectsV2 (bucket : string) (token : option string)
| HeadObject (bucket key : string)
| S3DownloadFile (bucket key filename : string)
| Call_download_file (key local_path : string).

(** *** The monad: local files as state, a trace, exceptions and fuel *)

Definition M (A : Type) : Type :=
  gmap string content → outcome A * gmap string content * list event.

#[export] Instance M_ret : MRet M := λ A a fs, (Ret a, fs, []).

#[export] Instance M_bind : MBind M := λ A B k m fs,
  match m fs with
  | (Ret a, fs1, tr1) =>
      match k a fs1 with (r, fs2, tr2) => (r, fs2, tr1 ++ tr2) end
  | (Raise e, fs1, tr1) => (Raise e, fs1, tr1)
  | (Diverge, fs1, tr1) => (Diverge, fs1, tr1)
  end.

Definition raise {A} (e : exn) : M A := λ fs, (Raise e, fs, []).
Definition diverge {A} : M A := λ fs, (Diverge, fs, []).
Definition emit (ev : event) : M unit := λ fs, (Ret tt, fs, [ev]).
Definition print (m : message) : M unit := emit (Print m).
Definition lift {A} (r : result A) : M A :=
  match r with Ok a => mret a | Err e => raise e end.

(** [try: body except ...]: [handler e] is the clause that matches [e],
    if one does. *)
Definition try_except {A} (body : M A) (handler : exn → option (M A))
    : M A := λ fs,
  match body fs with
  | (Raise e, fs1, tr1) =>
      match handler e with
      | Some h => match h fs1 with (r, fs2, tr2) => (r, fs2, tr1 ++ tr2) end
      | None => (Raise e, fs1, tr1)
      end
  | other => other
  end.

(** *** [os] and [json] on the file map

    The map holds the files, and the directories a state names as such. A
    directory is also implied by every entry below it. The directories
    [os.makedirs(..., exist_ok=True)] creates are not recorded: the call
    leaves the map as it is, and it is taken to succeed. The properties
    that depend on where it does say so in their hypotheses
    ([plain_listing], [no_nesting], [clear_path] below). *)

Definition os_makedirs (path : string) : M unit := emit (Makedirs path).

Definition os_path_exists (path : string) : M bool :=
  λ fs, (Ret (if fs !! path is Some _ then true else false), fs, []).

(** [os.path.dirname]: up to the last separator, trailing separators
    stripped unless nothing else is left. *)
Fixpoint drop_trailing_sep (r : list ascii) : list ascii :=
  match r with
  | c :: r' => if Ascii.eqb c "/"%char then drop_trailing_sep r' else r
  | [] => []
  end.

Fixpoint drop_last_component (r : list ascii) : list ascii :=
  match r with
  | c :: r' => if Ascii.eqb c "/"%char then r else drop_last_component r'
  | [] => []
  end.

Definition os_path_dirname (p : string) : string :=
  let head := drop_last_component (rev (String.list_ascii_of_string p)) in
  match drop_trailing_sep head with
  | [] => String.string_of_list_ascii (rev head)
  | stripped => String.string_of_list_ascii (rev stripped)
  end.

(** Some entry of the map lies strictly below [dir]. *)
Definition has_entry_below (fs : gmap string content) (dir : string) : bool :=
  existsb (λ entry, OsPath.below dir entry.1) (map_to_list fs).

(** [path] is a directory: named as one, or implied by an entry below it. *)
Definition is_directory (fs : gmap string content) (path : string) : bool :=
  match fs !! path with
  | Some (Directory _) => true
  | _ => has_entry_below fs path
  end.

Section Json.

(** The number of bytes [json.dump(metadata, f, indent=2)] writes. *)
Variable json_size : metadata → N.

Definition getsize (c : content) : N :=
  match c with
  | Blob n => n
  | Manifest m => json_size m
  | Directory n => n
  end.

Definition os_path_getsize (path : string) : M N := λ fs,
  match fs !! path with
  | Some c => (Ret (getsize c), fs, [])
  | None => (Raise (OSError "No such file or directory"), fs, [])
  end.

(** [with open(path, 'w') as f: json.dump(m, f, indent=2)]: opening a
    directory for writing raises [IsADirectoryError], an [OSError]. *)
Definition write_json (path : string) (m : metadata) : M unit := λ fs,
  if is_directory fs path then (Raise (OSError "Is a directory"), fs, [])
  else (Ret tt, <[path := Manifest m]> fs, []).

(** [json.load] reads back what [write_json] wrote; fetched bytes are
    opaque and are not taken to parse. *)
Definition json_load (path : string) : M metadata := λ fs,
  match fs !! path with
  | Some (Manifest m) => (Ret m, fs, [])
  | Some (Blob _) => (Raise (OtherException "JSONDecodeError"), fs, [])
  | Some (Directory _) => (Raise (OSError "Is a directory"), fs, [])
  | None => (Raise (OSError "No such file or directory"), fs, [])
  end.

(** A finished transfer replaces the file; a failed one leaves it. The
    bytes served by the store cannot take the place of a directory: the
    transfer then ends in an [OSError]. *)
Definition write_blob (path : string) (n : N) : M unit := λ fs,
  match fs !! path with
  | Some (Directory _) => (Raise (OSError "Is a directory"), fs, [])
  | _ => (Ret tt, <[path := Blob n]> fs, [])
  end.

(** *** [class ModelDownloader] *)

Record ModelDownloader : Type := {
  bucket_name : string;
  endpoint_url : string;
  region : string;
  s3 : option s3_client;
  model_path : string }.

(** [_create_s3_client]: [None] when a credential is missing. *)
Definition _create_s3_client (env : environment)
    (self_endpoint_url self_region : string) : M (option s3_client) :=
  try_except
    (let access_key := getenv env "AWS_ACCESS_KEY_ID" in
     let secret_key := getenv env "AWS_SECRET_ACCESS_KEY" in
     if negb (truthy access_key) || negb (truthy secret_key) then
       print Msg_credentials_not_found;;
       print Msg_credentials_hint;;
       mret None
     else
       c ← lift (boto3_client env self_endpoint_url self_region
                   (default EmptyString access_key)
                   (default EmptyString secret_key));
       mret (Some c))
    (λ e, Some (print (Msg_error_creating_client e);; raise e)).

Definition __init__ (env : environment)
    (bucket_name endpoint_url region : string) : M ModelDownloader :=
  s3 ← _create_s3_client env endpoint_url region;
  mret {| bucket_name := bucket_name; endpoint_url := endpoint_url;
          region := region; s3 := s3; model_path := "/model" |}.

(** [self.s3.<method>]: attribute access on [None] raises. *)
Definition s3_method (self : ModelDownloader) (method : string)
    : M s3_client :=
  match s3 self with
  | Some c => mret c
  | None =>
      raise (AttributeError
               ("'NoneType' object has no attribute '" +:+ method +:+ "'"))
  end.

(** [download_file(key, local_path)] *)
Definition download_file (self : ModelDownloader)
    (key local_path : string) : M bool :=
  emit (Call_download_file key local_path);;
  try_except
    (c ← s3_method self "head_object";
     emit (HeadObject (bucket_name self) key);;
     file_size ← lift (head_object c (bucket_name self) key);
     os_makedirs (os_path_dirname local_path);;
     c ← s3_method self "download_file";
     emit (S3DownloadFile (bucket_name self) key local_path);;
     written ← lift (s3_download_file c (bucket_name self) key local_path);
     write_blob local_path written;;
     mret true)
    (λ e,
     if is_ClientError e then
       Some (print (Msg_error_downloading key e);; mret false)
     else
       Some (print (Msg_unexpected_error_downloading key e);; mret false)).

(** The [while True] of [list_bucket_contents]; one unit of fuel per
    page request. *)
Fixpoint list_loop (fuel : nat) (self : ModelDownloader)
    (objects : list s3_object) (continuation_token : option string)
    : M (list s3_object) :=
  match fuel with
  | O => diverge
  | S fuel' =>
      c ← s3_method self "list_objects_v2";
      let token :=
        if truthy continuation_token then continuation_token else None in
      emit (ListObjectsV2 (bucket_name self) token);;
      response ← lift (list_objects_v2 c (bucket_name self) token);
      let objects :=
        match Contents response with
        | Some page => objects ++ page
        | None => objects
        end in
      if negb (truthy_flag (IsTruncated response)) then mret objects
      else list_loop fuel' self objects (NextContinuationToken response)
  end.

(** [list_bucket_contents()] *)
Definition list_bucket_contents (fuel : nat) (self : ModelDownloader)
    : M (list s3_object) :=
  try_except
    (list_loop fuel self [] None)
    (λ e,
     if is_ClientError e then
       Some (print (Msg_error_listing e);; mret [])
     else None).

(** The body of [for obj in objects]; the pair is
    [(success_count, failed_count)]. *)
Definition sync_object (self : ModelDownloader) (obj : s3_object)
    (counts : nat * nat) : M (nat * nat) :=
  let '(success_count, failed_count) := counts in
  let key := Key obj in
  let local_file_path := OsPath.join (model_path self) key in
  let download :=
    print (Msg_downloading key);;
    ok ← download_file self key local_file_path;
    if ok : bool then mret (S success_count, failed_count)
    else mret (success_count, S failed_count) in
  present ← os_path_exists local_file_path;
  if present : bool then
    local_size ← os_path_getsize local_file_path;
    if N.eqb local_size (Size obj) then
      print (Msg_already_exists key);;
      mret (S success_count, failed_count)
    else download
  else download.

Fixpoint sync_loop (self : ModelDownloader) (objects : list s3_object)
    (counts : nat * nat) : M (nat * nat) :=
  match objects with
  | [] => mret counts
  | obj :: rest =>
      counts' ← sync_object self obj counts;
      sync_loop self rest counts'
  end.

Definition manifest_path (self : ModelDownloader) : string :=
  OsPath.join (model_path self) "download_metadata.json".

(** [download_model()]; [now] is what [time.time()] reads. *)
Definition download_model (fuel : nat) (now : Z) (self : ModelDownloader)
    : M bool :=
  print (Msg_starting (bucket_name self));;
  print (Msg_saved_to (model_path self));;
  os_makedirs (model_path self);;
  print Msg_listing;;
  objects ← list_bucket_contents fuel self;
  match objects with
  | [] =>
      print Msg_no_files;;
      mret false
  | _ :: _ =>
      print (Msg_found (length objects));;
      '(success_count, failed_count) ← sync_loop self objects (0, 0);
      let metadata := {|
        download_time := now;
        md_bucket_name := bucket_name self;
        md_endpoint_url := endpoint_url self;
        total_files := length objects;
        successful_downloads := success_count;
        failed_downloads := failed_count |} in
      write_json (manifest_path self) metadata;;
      print Msg_completed;;
      print (Msg_successful success_count);;
      print (Msg_failed failed_count);;
      mret (Nat.eqb failed_count 0)
  end.

(** [get_model_info()] *)
Definition get_model_info (self : ModelDownloader)
    : M (option metadata) :=
  let metadata_file := manifest_path self in
  present ← os_path_exists metadata_file;
  if present : bool then
    m ← json_load metadata_file;
    mret (Some m)
  else mret None.

(** [download_model_from_s3(bucket_name, endpoint_url, region)] *)
Definition download_model_from_s3 (env : environment) (fuel : nat)
    (now : Z) (bucket_name endpoint_url region : string) : M bool :=
  downloader ← __init__ env bucket_name endpoint_url region;
  download_model fuel now downloader.

End Json.

End ModelDownloader.

Import ModelDownloader.

(** ** Vocabulary of the properties *)

(** The local destination of a listed object. *)
Definition destination (self : ModelDownloader) (obj : s3_object) : string :=
  OsPath.join (model_path self) (Key obj).

(** What [download_file] leaves at [local_path]: the bytes written when the
    metadata call and the transfer both succeed. *)
Definition transfer (self : ModelDownloader) (key local_path : string)
    : option N :=
  match s3 self with
  | None => None
  | Some c =>
      match head_object c (bucket_name self) key with
      | Err _ => None
      | Ok _ =>
          match s3_download_file c (bucket_name self) key local_path with
          | Ok written => Some written
          | Err _ => None
          end
      end
  end.

(** What [download_file] leaves at [local_path] from the files [fs]: the
    served bytes, unless a directory is in their way. *)
Definition lands (fs : gmap string content) (self : ModelDownloader)
    (key local_path : string) : option N :=
  match fs !! local_path with
  | Some (Directory _) => None
  | _ => transfer self key local_path
  end.

(** The test of the loop body: a local file of the listed size. *)
Definition up_to_date (json_size : metadata → N)
    (fs : gmap string content) (self : ModelDownloader) (obj : s3_object)
    : bool :=
  match fs !! destination self obj with
  | Some c => N.eqb (getsize json_size c) (Size obj)
  | None => false
  end.

(** Whether the loop body counts the object as a success, and the files it
    leaves. *)
Definition obj_ok (json_size : metadata → N)
    (fs : gmap string content) (self : ModelDownloader) (obj : s3_object)
    : bool :=
  up_to_date json_size fs self obj
  || (if lands fs self (Key obj) (destination self obj) is Some _
      then true else false).

Definition obj_files (json_size : metadata → N)
    (fs : gmap string content) (self : ModelDownloader) (obj : s3_object)
    : gmap string content :=
  if up_to_date json_size fs self obj then fs
  else
    match lands fs self (Key obj) (destination self obj) with
    | Some w => <[destination self obj := Blob w]> fs
    | None => fs
    end.

Fixpoint loop_oks (json_size : metadata → N) (self : ModelDownloader)
    (objs : list s3_object) (fs : gmap string content) : list bool :=
  match objs with
  | [] => []
  | o :: rest =>
      obj_ok json_size fs self o
      :: loop_oks json_size self rest (obj_files json_size fs self o)
  end.

Fixpoint loop_files (json_size : metadata → N) (self : ModelDownloader)
    (objs : list s3_object) (fs : gmap string content)
    : gmap string content :=
  match objs with
  | [] => fs
  | o :: rest =>
      loop_files json_size self rest (obj_files json_size fs self o)
  end.

Definition count_true (bs : list bool) : nat :=
  length (filter (λ b, b = true) bs).

Definition count_false (bs : list bool) : nat :=
  length (filter (λ b, b = false) bs).

(** Console lines that report a failed download. *)
Definition is_download_error (ev : event) : bool :=
  match ev with
  | Print (Msg_error_downloading _ _)
  | Print (Msg_unexpected_error_downloading _ _) => true
  | _ => false
  end.

Definition failures (tr : list event) : nat :=
  length (filter (λ ev, is_download_error ev = true) tr).

(** One event per object that the loop body handles: the line of a skipped
    object or the entry into [download_file]. *)
Definition is_object_step (ev : event) : bool :=
  match ev with
  | Print (Msg_already_exists _) | Call_download_file _ _ => true
  | _ => false
  end.

Definition steps (tr : list event) : nat :=
  length (filter (λ ev, is_object_step ev = true) tr).

(** Events of [download_file]: its entry and its two API calls. *)
Definition is_download_event (ev : event) : bool :=
  match ev with
  | Call_download_file _ _ | HeadObject _ _ | S3DownloadFile _ _ _ => true
  | _ => false
  end.

(** Events of the listing. *)
Definition is_listing_event (ev : event) : bool :=
  match ev with
  | ListObjectsV2 _ _ | Print (Msg_error_listing _) => true
  | _ => false
  end.

(** A provider that serves the listing in pages: every page but the last is
    truncated and names the token of the next one. *)
Inductive pages_from (c : s3_client) (bucket : string)
    : option string → list (list s3_object) → Prop :=
| pages_last token page r :
    list_objects_v2 c bucket token = Ok r →
    Contents r = Some page →
    truthy_flag (IsTruncated r) = false →
    pages_from c bucket token [page]
| pages_more token page next rest r :
    list_objects_v2 c bucket token = Ok r →
    Contents r = Some page →
    IsTruncated r = Some true →
    NextContinuationToken r = Some next →
    next ≠ EmptyString →
    pages_from c bucket (Some next) rest →
    pages_from c bucket token (page :: rest).

(** Two manifests that differ at most in [download_time]. *)
Definition same_except_time (m1 m2 : metadata) : Prop :=
  md_bucket_name m1 = md_bucket_name m2
  ∧ md_endpoint_url m1 = md_endpoint_url m2
  ∧ total_files m1 = total_files m2
  ∧ successful_downloads m1 = successful_downloads m2
  ∧ failed_downloads m1 = failed_downloads m2.

(** The same, for what is found at the manifest path. *)
Definition manifests_agree (c1 c2 : option content) : Prop :=
  match c1, c2 with
  | Some (Manifest m1), Some (Manifest m2) => same_except_time m1 m2
  | Some (Blob n1), Some (Blob n2) => n1 = n2
  | Some (Directory n1), Some (Directory n2) => n1 = n2
  | None, None => True
  | _, _ => False
  end.

(** ** Sample worlds *)

Definition json_size0 : metadata → N := λ _, 200%N.

(** An environment without the two credential variables. *)
Definition no_credentials (c : s3_client) : environment :=
  {| getenv := λ _, None; boto3_client := λ _ _ _ _, Ok c |}.

(** A store that lists [objs] in one page and answers transfers by
    [fetch]. *)
Definition one_page (objs : list s3_object) (fetch : string → result N)
    : s3_client :=
  {| list_objects_v2 := λ _ _,
       Ok {| Contents := Some objs; IsTruncated := Some false;
             NextContinuationToken := None |};
     head_object := λ _ key,
       match find (λ o, String.eqb (Key o) key) objs with
       | Some o => Ok (Size o)
       | None => Err (ClientError "Not Found")
       end;
     s3_download_file := λ _ key _, fetch key |}.

(** A store with no object: the response carries no [Contents]. *)
Definition empty_bucket : s3_client :=
  {| list_objects_v2 := λ _ _,
       Ok {| Contents := None; IsTruncated := Some false;
             NextContinuationToken := None |};
     head_object := λ _ _, Err (ClientError "Not Found");
     s3_download_file := λ _ _ _, Err (ClientError "Not Found") |}.

(** A store whose endpoint cannot be reached. *)
Definition unreachable : s3_client :=
  {| list_objects_v2 := λ _ _, Err (BotoCoreError "EndpointConnectionError");
     head_object := λ _ _, Err (BotoCoreError "EndpointConnectionError");
     s3_download_file := λ _ _ _,
       Err (BotoCoreError "EndpointConnectionError") |}.

(** A store that serves two pages, the second under the token [t1]. *)
Definition two_pages (first second : list s3_object) : s3_client :=
  {| list_objects_v2 := λ _ token,
       match token with
       | None =>
           Ok {| Contents := Some first; IsTruncated := Some true;
                 NextContinuationToken := Some "t1" |}
       | Some _ =>
           Ok {| Contents := Some second; IsTruncated := Some false;
                 NextContinuationToken := None |}
       end;
     head_object := λ _ _, Err (ClientError "Not Found");
     s3_download_file := λ _ _ _, Err (ClientError "Not Found") |}.

Definition downloader (c : option s3_client) : ModelDownloader :=
  {| bucket_name := "rd0cg4jfje";
     endpoint_url := "https://s3api-eu-cz-1.runpod.io";
     region := "eu-cz-1"; s3 := c; model_path := "/model" |}.

(** Two keys with one destination: the relative key [a], whose transfer is
    refused, and the absolute key [/model/a]. *)
Definition colliding : list s3_object :=
  [ {| Key := "a"; Size := 5%N |}; {| Key := "/model/a"; Size := 5%N |} ].

Definition colliding_store : s3_client :=
  one_page colliding
    (λ key, if String.eqb key "a" then Err (ClientError "InvalidObjectState")
            else Ok 5%N).

(** Two runs in succession against that store, from an empty directory. *)
Definition colliding_first : outcome bool * gmap string content * list event :=
  download_model json_size0 1 100 (downloader (Some colliding_store)) ∅.

Definition colliding_second
    : outcome bool * gmap string content * list event :=
  download_model json_size0 1 200 (downloader (Some colliding_store))
    colliding_first.1.2.

Definition weights : s3_object := {| Key := "weights.bin"; Size := 7%N |}.

Definition weights_store : s3_client := one_page [weights] (λ _, Ok 7%N).

(** ** Further vocabulary and sample worlds *)

(** The key an object step is about. *)
Definition step_key (ev : event) : option string :=
  match ev with
  | Print (Msg_already_exists key) | Call_download_file key _ => Some key
  | _ => None
  end.

(** The keys of the object steps of a trace, in order. *)
Definition step_keys (tr : list event) : list string := omap step_key tr.

(** Requests to the store, by kind, and their number in a trace. *)
Definition is_list_request (ev : event) : bool :=
  match ev with ListObjectsV2 _ _ => true | _ => false end.

Definition is_head_call (ev : event) : bool :=
  match ev with HeadObject _ _ => true | _ => false end.

Definition is_transfer_call (ev : event) : bool :=
  match ev with S3DownloadFile _ _ _ => true | _ => false end.

Definition count_events (P : event → bool) (tr : list event) : nat :=
  length (filter (λ ev, P ev = true) tr).

(** The listing of a downloader rooted at [/model] names plain relative
    keys, none of them below the manifest path: every destination is then
    the canonical path [/model/key]. *)
Definition plain_listing (self : ModelDownloader) (objs : list s3_object)
    : Prop :=
  model_path self = "/model"
  ∧ ∀ obj, obj ∈ objs →
      OsPath.plain_key (Key obj) = true
      ∧ OsPath.below (manifest_path self) (destination self obj) = false.

(** No destination lies below another: no listed object has to become a
    directory for another one to be stored. *)
Definition no_nesting (self : ModelDownloader) (objs : list s3_object)
    : Prop :=
  ∀ o1 o2, o1 ∈ objs → o2 ∈ objs →
    OsPath.below (destination self o1) (destination self o2) = false.

(** The local state names its entries by canonical paths, and the manifest
    path is not a directory in it. *)
Definition tidy_files (self : ModelDownloader) (fs : gmap string content)
    : Prop :=
  (∀ n, fs !! manifest_path self ≠ Some (Directory n))
  ∧ ∀ p, is_Some (fs !! p) →
      OsPath.canonical p = true
      ∧ OsPath.below (manifest_path self) p = false.

(** Path [mp] is not a directory of [fs]: none is named there and no entry
    lies below it. *)
Definition manifest_free (fs : gmap string content) (mp : string) : Prop :=
  (∀ n, fs !! mp ≠ Some (Directory n))
  ∧ ∀ p, is_Some (fs !! p) → OsPath.below mp p = false.

(** Nothing of the local state is in the way of a file at [p]: [p] is
    canonical, and no entry lies above it (its directories can be made) or
    below it (it is not a directory with entries). *)
Definition clear_path (fs : gmap string content) (p : string) : Prop :=
  OsPath.canonical p = true
  ∧ ∀ q, is_Some (fs !! q) →
      OsPath.canonical q = true
      ∧ OsPath.below q p = false
      ∧ OsPath.below p q = false.

Definition clear_destinations (self : ModelDownloader)
    (objs : list s3_object) (fs : gmap string content) : Prop :=
  ∀ obj, obj ∈ objs → clear_path fs (destination self obj).

(** A store with two objects under plain keys, one in a folder; the
    transfer of the first is refused. *)
Definition two_files : list s3_object :=
  [ {| Key := "config.json"; Size := 5%N |};
    {| Key := "shards/weights.bin"; Size := 7%N |} ].

Definition two_files_store : s3_client :=
  one_page two_files
    (λ key, if String.eqb key "config.json"
            then Err (ClientError "InvalidObjectState") else Ok 7%N).

(** A store whose one object lies below the name of the manifest. *)
Definition below_manifest : s3_object :=
  {| Key := "download_metadata.json/x"; Size := 5%N |}.

Definition below_manifest_store : s3_client :=
  one_page [below_manifest] (λ _, Ok 5%N).

(** The downloader [__init__] builds around a client. *)
Definition built (bucket endpoint rgn : string) (c : option s3_client)
    : ModelDownloader :=
  {| bucket_name := bucket; endpoint_url := endpoint; region := rgn;
     s3 := c; model_path := "/model" |}.

(** A store that marks its only page as truncated and names no next
    token. *)
Definition stuck_store : s3_client :=
  {| list_objects_v2 := λ _ _,
       Ok {| Contents := Some [ {| Key := "weights.bin"; Size := 7%N |} ];
             IsTruncated := Some true; NextContinuationToken := None |};
     head_object := λ _ _, Ok 7%N;
     s3_download_file := λ _ _ _, Ok 7%N |}.

(** A store whose first page is fine and whose second request is refused. *)
Definition second_page_refused : s3_client :=
  {| list_objects_v2 := λ _ token,
       match token with
       | None =>
           Ok {| Contents := Some [ {| Key := "weights.bin"; Size := 7%N |} ];
                 IsTruncated := Some true;
                 NextContinuationToken := Some "t1" |}
       | Some _ => Err (ClientError "AccessDenied")
       end;
     head_object := λ _ _, Ok 7%N;
     s3_download_file := λ _ _ _, Ok 7%N |}.

(** Environments with both credentials set, with a factory that builds [c]
    or that fails. *)
Definition credentials (name : string) : option string :=
  if String.eqb name "AWS_ACCESS_KEY_ID" then Some "AKIA"
  else if String.eqb name "AWS_SECRET_ACCESS_KEY" then Some "secret"
  else None.

Definition with_credentials (c : s3_client) : environment :=
  {| getenv := credentials; boto3_client := λ _ _ _ _, Ok c |}.

Definition failing_factory : environment :=
  {| getenv := credentials;
     boto3_client := λ _ _ _ _, Err (OtherException "Invalid endpoint") |}.

(** An environment whose access key is set to the empty string. *)
Definition empty_access_key (c : s3_client) : environment :=
  {| getenv := λ name,
       if String.eqb name "AWS_ACCESS_KEY_ID" then Some EmptyString
       else credentials name;
     boto3_client := λ _ _ _ _, Ok c |}.

(** ** The monad's equations and the runs of the methods *)

Ltac unfold_M :=
  unfold s3_method, lift, print, os_makedirs, os_path_exists,
    os_path_getsize, write_json, write_blob, try_except;
  unfold emit, raise, diverge, mbind, M_bind, mret, M_ret.

Lemma failures_app tr1 tr2 : failures (tr1 ++ tr2) = failures tr1 + failures tr2.
Proof. unfold failures. by rewrite filter_app, length_app. Qed.

Lemma steps_app tr1 tr2 : steps (tr1 ++ tr2) = steps tr1 + steps tr2.
Proof. unfold steps. by rewrite filter_app, length_app. Qed.

(** [download_file] always returns: the flag and the files follow [lands],
    a failure prints one error line, and the trace starts with the entry
    event. *)
Lemma download_file_run self key p fs :
  ∃ tr,
    download_file self key p fs
    = (Ret (if lands fs self key p is Some _ then true else false),
       match lands fs self key p with
       | Some w => <[p := Blob w]> fs
       | None => fs
       end,
       Call_download_file key p :: tr)
    ∧ failures tr = (if lands fs self key p is Some _ then 0 else 1)
    ∧ steps tr = 0.
Proof.
  unfold download_file, lands, transfer. unfold_M.
  destruct (s3 self) as [c|]; simpl;
    [destruct (head_object c (bucket_name self) key) as [sz|e]; simpl;
     [destruct (s3_download_file c (bucket_name self) key p) as [w|e]; simpl|]
    |];
    try destruct (is_ClientError e); simpl;
    destruct (fs !! p) as [[n|m|n]|]; simpl;
    eexists; (split; [reflexivity|]); split; reflexivity.
Qed.

(** The loop body always returns and tallies the object once. *)
Lemma sync_object_run js self obj s f fs :
  ∃ tr,
    sync_object js self obj (s, f) fs
    = (Ret (if obj_ok js fs self obj then (S s, f) else (s, S f)),
       obj_files js fs self obj, tr)
    ∧ failures tr = (if obj_ok js fs self obj then 0 else 1)
    ∧ steps tr = 1
    ∧ (Print (Msg_already_exists (Key obj)) ∈ tr
       ∨ Call_download_file (Key obj) (destination self obj) ∈ tr).
Proof.
  unfold sync_object, obj_ok, obj_files, up_to_date.
  fold (destination self obj).
  destruct (download_file_run self (Key obj) (destination self obj) fs)
    as (tr & Hrun & Hfail & Hsteps).
  unfold_M.
  destruct (fs !! destination self obj) as [c|] eqn:Hlook; simpl;
    rewrite ?Hlook; simpl;
    [destruct (N.eqb (getsize js c) (Size obj)) eqn:Hsize; simpl|].
  1: { eexists. split; [reflexivity|]. split; [reflexivity|].
       split; [reflexivity|]. left. set_solver. }
  all: rewrite Hrun;
    destruct (lands fs self (Key obj) (destination self obj)) as [w|];
    simpl; eexists; (split; [reflexivity|]);
    rewrite app_nil_r;
    (split; [exact Hfail|]);
    (split; [change (S (steps tr) = 1); by rewrite Hsteps|]);
    right; set_solver.
Qed.

Lemma count_true_cons b bs :
  count_true (b :: bs) = (if b then 1 else 0) + count_true bs.
Proof. by destruct b. Qed.

Lemma count_false_cons b bs :
  count_false (b :: bs) = (if b then 0 else 1) + count_false bs.
Proof. by destruct b. Qed.

Lemma count_true_false bs : count_true bs + count_false bs = length bs.
Proof.
  induction bs as [|b bs IH]; [done|].
  rewrite count_true_cons, count_false_cons. destruct b; simpl; lia.
Qed.

Lemma length_loop_oks js self objs fs :
  length (loop_oks js self objs fs) = length objs.
Proof.
  revert fs. induction objs as [|o objs IH]; intros fs; simpl; [done|].
  by rewrite IH.
Qed.

(** The whole loop: it never stops early, whatever the transfers do. *)
Lemma sync_loop_run js self objs s f fs :
  ∃ tr,
    sync_loop js self objs (s, f) fs
    = (Ret (s + count_true (loop_oks js self objs fs),
            f + count_false (loop_oks js self objs fs)),
       loop_files js self objs fs, tr)
    ∧ failures tr = count_false (loop_oks js self objs fs)
    ∧ steps tr = length objs
    ∧ ∀ obj, obj ∈ objs →
        Print (Msg_already_exists (Key obj)) ∈ tr
        ∨ Call_download_file (Key obj) (destination self obj) ∈ tr.
Proof.
  revert s f fs.
  induction objs as [|o objs IH]; intros s f fs.
  - exists []. simpl. unfold_M. unfold count_true, count_false. simpl.
    rewrite !Nat.add_0_r.
    split; [reflexivity|]. split; [done|]. split; [done|]. set_solver.
  - destruct (sync_object_run js self o s f fs)
      as (tr1 & Hrun1 & Hfail1 & Hsteps1 & Hin1).
    cbn [sync_loop loop_oks loop_files].
    rewrite count_true_cons, count_false_cons.
    destruct (obj_ok js fs self o) eqn:Hok.
    + destruct (IH (S s) f (obj_files js fs self o))
        as (tr2 & Hrun2 & Hfail2 & Hsteps2 & Hin2).
      exists (tr1 ++ tr2). unfold mbind, M_bind.
      rewrite Hrun1, Hrun2, failures_app, steps_app, Hfail1, Hfail2,
        Hsteps1, Hsteps2.
      rewrite ?Nat.add_0_l, ?Nat.add_succ_r, ?Nat.add_0_r.
      split; [reflexivity|]. split; [lia|]. split; [done|].
      intros obj [->|Hobj]%elem_of_cons;
        [destruct Hin1 | destruct (Hin2 obj Hobj)];
        [left | right | left | right]; apply elem_of_app; auto.
    + destruct (IH s (S f) (obj_files js fs self o))
        as (tr2 & Hrun2 & Hfail2 & Hsteps2 & Hin2).
      exists (tr1 ++ tr2). unfold mbind, M_bind.
      rewrite Hrun1, Hrun2, failures_app, steps_app, Hfail1, Hfail2,
        Hsteps1, Hsteps2.
      rewrite ?Nat.add_0_l, ?Nat.add_succ_r, ?Nat.add_0_r.
      split; [reflexivity|]. split; [lia|]. split; [done|].
      intros obj [->|Hobj]%elem_of_cons;
        [destruct Hin1 | destruct (Hin2 obj Hobj)];
        [left | right | left | right]; apply elem_of_app; auto.
Qed.

(** The listing reads no local file and writes none: its result and trace
    are the same from every file map, and the trace holds listing events
    only. *)
Lemma list_loop_run fuel self objs tok :
  ∃ r tr,
    (∀ fs, list_loop fuel self objs tok fs = (r, fs, tr))
    ∧ Forall (λ ev, is_listing_event ev = true) tr.
Proof.
  revert objs tok.
  induction fuel as [|fuel IH]; intros objs tok; cbn [list_loop].
  - exists Diverge, []. split; [done | constructor].
  - unfold_M. destruct (s3 self) as [c|].
    + set (token := if truthy tok then tok else None).
      destruct (list_objects_v2 c (bucket_name self) token) as [resp|e].
      * destruct (negb (truthy_flag (IsTruncated resp))).
        -- eexists _, _. split; [intros fs; reflexivity|].
           repeat constructor.
        -- destruct (IH (match Contents resp with
                         | Some page => objs ++ page
                         | None => objs
                         end) (NextContinuationToken resp))
             as (r & tr & Hrun & Htr).
           exists r, (ListObjectsV2 (bucket_name self) token :: tr).
           split.
           ++ intros fs. rewrite Hrun. by destruct r.
           ++ by constructor.
      * eexists _, _. split; [intros fs; reflexivity|].
        repeat constructor.
    + eexists _, _. split; [intros fs; reflexivity | constructor].
Qed.

Lemma list_bucket_contents_run fuel self :
  ∃ r tr,
    (∀ fs, list_bucket_contents fuel self fs = (r, fs, tr))
    ∧ Forall (λ ev, is_listing_event ev = true) tr.
Proof.
  unfold list_bucket_contents, try_except.
  destruct (list_loop_run fuel self [] None) as (r & tr & Hrun & Htr).
  destruct r as [objs|e|].
  - exists (Ret objs), tr. split; [intros fs; by rewrite Hrun | done].
  - destruct (is_ClientError e) eqn:He.
    + exists (Ret []), (tr ++ [Print (Msg_error_listing e)]). split.
      * intros fs. rewrite Hrun, He. unfold_M. by rewrite app_nil_r.
      * apply Forall_app. split; [done | by repeat constructor].
    + exists (Raise e), tr. split; [intros fs; by rewrite Hrun, He | done].
  - exists Diverge, tr. split; [intros fs; by rewrite Hrun | done].
Qed.

Lemma listing_failures tr :
  Forall (λ ev, is_listing_event ev = true) tr → failures tr = 0.
Proof.
  induction 1 as [|ev tr Hev _ IH]; [done|].
  change (ev :: tr) with ([ev] ++ tr). rewrite failures_app, IH.
  by destruct ev as [[]| | | | |].
Qed.

Lemma listing_steps tr :
  Forall (λ ev, is_listing_event ev = true) tr → steps tr = 0.
Proof.
  induction 1 as [|ev tr Hev _ IH]; [done|].
  change (ev :: tr) with ([ev] ++ tr). rewrite steps_app, IH.
  by destruct ev as [[]| | | | |].
Qed.

Lemma list_bucket_contents_files fuel self fs r fs1 tr1 :
  list_bucket_contents fuel self fs = (r, fs1, tr1) →
  fs1 = fs
  ∧ Forall (λ ev, is_listing_event ev = true) tr1
  ∧ ∀ fs', list_bucket_contents fuel self fs' = (r, fs', tr1).
Proof.
  destruct (list_bucket_contents_run fuel self) as (r' & tr' & Hrun & Htr).
  rewrite Hrun. intros [= <- <- <-]. done.
Qed.

(** A run over a non-empty listing that can write its manifest, in
    full. *)
Lemma download_model_run js fuel now self fs objs fs1 tr1 :
  list_bucket_contents fuel self fs = (Ret objs, fs1, tr1) →
  objs ≠ [] →
  is_directory (loop_files js self objs fs) (manifest_path self) = false →
  ∃ tr,
    download_model js fuel now self fs
    = (Ret (Nat.eqb (count_false (loop_oks js self objs fs)) 0),
       <[manifest_path self := Manifest {|
           download_time := now;
           md_bucket_name := bucket_name self;
           md_endpoint_url := endpoint_url self;
           total_files := length objs;
           successful_downloads := count_true (loop_oks js self objs fs);
           failed_downloads := count_false (loop_oks js self objs fs) |}]>
         (loop_files js self objs fs),
       tr)
    ∧ failures tr = count_false (loop_oks js self objs fs)
    ∧ steps tr = length objs
    ∧ Print (Msg_failed (count_false (loop_oks js self objs fs))) ∈ tr
    ∧ ∀ obj, obj ∈ objs →
        Print (Msg_already_exists (Key obj)) ∈ tr
        ∨ Call_download_file (Key obj) (destination self obj) ∈ tr.
Proof.
  intros Hlist Hne Hdir.
  destruct (list_bucket_contents_files _ _ _ _ _ _ Hlist) as (-> & Hev & _).
  destruct (sync_loop_run js self objs 0 0 fs)
    as (tr & Hloop & Hfail & Hsteps & Hin).
  unfold download_model. unfold_M. rewrite Hlist.
  destruct objs as [|o objs]; [done|].
  rewrite Hloop, Hdir. cbn [Nat.add]. eexists. split; [reflexivity|].
  rewrite !failures_app, !steps_app, Hfail, Hsteps.
  rewrite (listing_failures _ Hev), (listing_steps _ Hev).
  split; [unfold failures; simpl; lia|].
  split; [unfold steps; simpl; lia|].
  split; [rewrite !elem_of_app, !list_elem_of_singleton; tauto|].
  intros obj Hobj. rewrite !elem_of_app.
  destruct (Hin obj Hobj); tauto.
Qed.

(** A run over a non-empty listing whose manifest path has become, or
    was, a directory: every object is handled, then the open raises. *)
Lemma download_model_raises js fuel now self fs objs fs1 tr1 :
  list_bucket_contents fuel self fs = (Ret objs, fs1, tr1) →
  objs ≠ [] →
  is_directory (loop_files js self objs fs) (manifest_path self) = true →
  ∃ tr,
    download_model js fuel now self fs
    = (Raise (OSError "Is a directory"), loop_files js self objs fs, tr)
    ∧ failures tr = count_false (loop_oks js self objs fs)
    ∧ steps tr = length objs.
Proof.
  intros Hlist Hne Hdir.
  destruct (list_bucket_contents_files _ _ _ _ _ _ Hlist) as (-> & Hev & _).
  destruct (sync_loop_run js self objs 0 0 fs)
    as (tr & Hloop & Hfail & Hsteps & Hin).
  unfold download_model. unfold_M. rewrite Hlist.
  destruct objs as [|o objs]; [done|].
  rewrite Hloop, Hdir. eexists. split; [reflexivity|].
  rewrite !failures_app, !steps_app, Hfail, Hsteps.
  rewrite (listing_failures _ Hev), (listing_steps _ Hev).
  split; [unfold failures; simpl; lia|].
  unfold steps; simpl; lia.
Qed.

Lemma listing_no_download tr :
  Forall (λ ev, is_listing_event ev = true) tr →
  Forall (λ ev, is_download_event ev = false) tr.
Proof.
  intros Htr. eapply Forall_impl; [exact Htr|].
  intros ev Hev. by destruct ev as [[]| | | | |].
Qed.

(** A [ClientError] from the listing is swallowed: the method prints a line
    and returns the empty list. *)
Lemma list_bucket_contents_ClientError fuel self c msg fs :
  s3 self = Some c →
  list_objects_v2 c (bucket_name self) None = Err (ClientError msg) →
  list_bucket_contents (S fuel) self fs
  = (Ret [], fs,
     [ListObjectsV2 (bucket_name self) None;
      Print (Msg_error_listing (ClientError msg))]).
Proof.
  intros Hc Herr. unfold list_bucket_contents. cbn [list_loop].
  unfold_M. rewrite Hc. simpl. by rewrite Herr.
Qed.

(** Against a provider that serves pages, the loop follows the tokens to the
    last page and returns the pages' objects in order, one request per
    page. *)
Lemma list_loop_pages self c pages tok :
  s3 self = Some c →
  pages_from c (bucket_name self) tok pages →
  (if truthy tok then tok else None) = tok →
  ∀ fuel acc fs, length pages ≤ fuel →
    ∃ tr,
      list_loop fuel self acc tok fs = (Ret (acc ++ concat pages), fs, tr)
      ∧ length tr = length pages.
Proof.
  intros Hc Hpages. induction Hpages
    as [token page r Hresp Hpage Hlast
       | token page next rest r Hresp Hpage Hmore Hnext Hne _ IH];
    intros Htok fuel acc fs Hfuel.
  - destruct fuel as [|fuel]; [simpl in Hfuel; lia|].
    cbn [list_loop]. unfold_M. rewrite Hc. simpl. rewrite Htok, Hresp.
    simpl. rewrite Hpage, Hlast. simpl. rewrite app_nil_r.
    eexists. split; reflexivity.
  - destruct fuel as [|fuel]; [simpl in Hfuel; lia|].
    assert (Htok' : (if truthy (Some next) then Some next else None)
                    = Some next).
    { simpl. destruct (String.eqb_spec next EmptyString); [done|]. done. }
    destruct (IH Htok' fuel (acc ++ page) fs) as (tr & Hrun & Hlen).
    { simpl in Hfuel. lia. }
    cbn [list_loop]. unfold_M. rewrite Hc. simpl. rewrite Htok, Hresp.
    simpl. rewrite Hpage, Hmore, Hnext. simpl. rewrite Hrun.
    rewrite <- app_assoc.
    eexists. split; [reflexivity|]. simpl. by rewrite Hlen.
Qed.

(** X4. Against a provider that serves the listing in pages, each page
    but the last truncated and naming the token of the next,
    [list_bucket_contents] returns the objects of all pages in the order
    served, after exactly one request per page. *)
Lemma list_bucket_contents_pages self c pages fuel fs :
  s3 self = Some c →
  pages_from c (bucket_name self) None pages →
  length pages ≤ fuel →
  ∃ tr,
    list_bucket_contents fuel self fs = (Ret (concat pages), fs, tr)
    ∧ length tr = length pages.
Proof.
  intros Hc Hpages Hfuel.
  destruct (list_loop_pages self c pages None Hc Hpages eq_refl fuel [] fs
              Hfuel) as (tr & Hrun & Hlen).
  exists tr. unfold list_bucket_contents, try_except. by rewrite Hrun.
Qed.

Example two_pages_listed (a b c : s3_object) :
  list_bucket_contents 2 (downloader (Some (two_pages [a] [b; c]))) ∅
  = (Ret [a; b; c], ∅,
     [ListObjectsV2 "rd0cg4jfje" None; ListObjectsV2 "rd0cg4jfje" (Some "t1")]).
Proof. reflexivity. Qed.

Example two_pages_served (a b c : s3_object) :
  pages_from (two_pages [a] [b; c]) "rd0cg4jfje" None [[a]; [b; c]].
Proof.
  eapply pages_more; [reflexivity | reflexivity | reflexivity | reflexivity
                     | discriminate |].
  eapply pages_last; reflexivity.
Qed.

Lemma CONFIG_MODEL_PATH getenv :
  Main.CONFIG getenv !! "MODEL_PATH" = Some "/model".
Proof. unfold Main.CONFIG. by simplify_map_eq. Qed.

(** The bootstrap never fails, with or without credentials. *)
Lemma initialize_worker_ready getenv :
  (Main.initialize_worker getenv).2
  = Ret (<["status" := "ready"]> (<["model_path" := "/model"]> ∅)).
Proof.
  unfold Main.initialize_worker, Main.getitem. cbn [snd].
  by rewrite CONFIG_MODEL_PATH.
Qed.

(** The two branches of the loop body. *)
Lemma sync_object_skip js self obj s f fs :
  up_to_date js fs self obj = true →
  sync_object js self obj (s, f) fs
  = (Ret (S s, f), fs, [Print (Msg_already_exists (Key obj))]).
Proof.
  unfold up_to_date, sync_object. fold (destination self obj). unfold_M.
  destruct (fs !! destination self obj) as [c|] eqn:Hlook; [|done].
  intros Hsize. simpl. by rewrite Hlook, Hsize.
Qed.

Lemma sync_object_download js self obj s f fs ok fs' tr :
  up_to_date js fs self obj = false →
  download_file self (Key obj) (destination self obj) fs = (Ret ok, fs', tr) →
  sync_object js self obj (s, f) fs
  = (Ret (if ok then (S s, f) else (s, S f)), fs',
     Print (Msg_downloading (Key obj)) :: tr).
Proof.
  unfold up_to_date, sync_object. fold (destination self obj). unfold_M.
  intros Hutd Hrun.
  destruct (fs !! destination self obj) as [c|] eqn:Hlook; simpl;
    rewrite ?Hlook; simpl; rewrite ?Hutd, Hrun;
    destruct ok; simpl; by rewrite app_nil_r.
Qed.

(** ** The job handler *)

(** C7. A job whose mapping holds [v] under ["input"] is answered with
    exactly the three entries status [success], the configured model path
    [/model] and the text [Processed input: ] followed by the rendering of
    [v]; for the string [x] the last entry reads [Processed input: x]. *)
Theorem handler_success getenv (job : gmap string value) v :
  job !! "input" = Some v →
  Main.CONFIG getenv !! "MODEL_PATH" = Some "/model"
  ∧ Main.handler getenv job
    = Ret (<["status" := "success"]> (<["model_used" := "/model"]>
          (<["result" := "Processed input: " +:+ str_value v]> ∅))).
Proof.
  intros Hin. split; [apply CONFIG_MODEL_PATH|].
  unfold Main.handler, Main.getitem.
  rewrite Hin, CONFIG_MODEL_PATH. reflexivity.
Qed.

Lemma handler_success_witness :
  ({["input" := PyStr "x"]} : gmap string value) !! "input" = Some (PyStr "x")
  ∧ Main.handler (λ _, None) {["input" := PyStr "x"]}
    = Ret (<["status" := "success"]> (<["model_used" := "/model"]>
          (<["result" := "Processed input: x"]> ∅))).
Proof.
  split; [reflexivity|].
  exact (proj2 (handler_success (λ _, None) {["input" := PyStr "x"]}
                  (PyStr "x") eq_refl)).
Defined.

(** C8. A job whose mapping has no ["input"] entry is answered, not
    raised: the handler returns the two entries status [error] and a
    message, the message being the non-empty rendering of the [KeyError]. *)
Theorem handler_missing_input getenv (job : gmap string value) :
  job !! "input" = None →
  ∃ m,
    Main.handler getenv job
    = Ret (<["status" := "error"]> (<["message" := m]> ∅))
    ∧ m = str_exn (KeyError "input")
    ∧ m ≠ EmptyString.
Proof.
  intros Hin. exists (str_exn (KeyError "input")).
  unfold Main.handler, Main.getitem. rewrite Hin. simpl.
  split; [reflexivity|]. split; [reflexivity | discriminate].
Qed.

Lemma handler_missing_input_witness :
  (∅ : gmap string value) !! "input" = None
  ∧ ∃ m,
      Main.handler (λ _, None) ∅
      = Ret (<["status" := "error"]> (<["message" := m]> ∅))
      ∧ m = str_exn (KeyError "input")
      ∧ m ≠ EmptyString.
Proof.
  split; [reflexivity|].
  exact (handler_missing_input (λ _, None) ∅ eq_refl).
Defined.

(** ** Destinations *)





(** ** Missing credentials and listing errors *)

(** C1 (the code departs from the claim). When either credential variable
    is absent, [_create_s3_client] returns [None], and the first attribute
    access on it, in the listing, raises an [AttributeError] that
    [list_bucket_contents] does not catch: [download_model_from_s3] raises
    it to its caller instead of reporting a failed run. *)
Theorem missing_credentials_raise js env fuel now bucket endpoint rgn fs :
  getenv env "AWS_ACCESS_KEY_ID" = None
  ∨ getenv env "AWS_SECRET_ACCESS_KEY" = None →
  download_model_from_s3 js env (S fuel) now bucket endpoint rgn fs
  = (Raise (AttributeError
              "'NoneType' object has no attribute 'list_objects_v2'"),
     fs,
     [Print Msg_credentials_not_found; Print Msg_credentials_hint;
      Print (Msg_starting bucket); Print (Msg_saved_to "/model");
      Makedirs "/model"; Print Msg_listing]).
Proof.
  intros Hcred.
  assert (Hfalsy :
    negb (truthy (getenv env "AWS_ACCESS_KEY_ID"))
    || negb (truthy (getenv env "AWS_SECRET_ACCESS_KEY")) = true).
  { destruct Hcred as [-> | ->]; [done|]. apply orb_true_r. }
  unfold download_model_from_s3, __init__, _create_s3_client,
    download_model, list_bucket_contents.
  cbn [list_loop]. unfold_M. rewrite Hfalsy. reflexivity.
Qed.

Lemma missing_credentials_raise_witness :
  (getenv (no_credentials weights_store) "AWS_ACCESS_KEY_ID" = None
   ∨ getenv (no_credentials weights_store) "AWS_SECRET_ACCESS_KEY" = None)
  ∧ (download_model_from_s3 json_size0 (no_credentials weights_store) 1 0
       "rd0cg4jfje" "https://s3api-eu-cz-1.runpod.io" "eu-cz-1" ∅).1.1
    = Raise (AttributeError
               "'NoneType' object has no attribute 'list_objects_v2'").
Proof.
  split; [by left|].
  rewrite (missing_credentials_raise json_size0
             (no_credentials weights_store) 0 0 "rd0cg4jfje"
             "https://s3api-eu-cz-1.runpod.io" "eu-cz-1" ∅ (or_introl eq_refl)).
  reflexivity.
Defined.

(** C6 (the code departs from the claim). Only [ClientError] is caught by
    [list_bucket_contents]: an error of any other class raised by the first
    page request leaves the method as an exception, not as an empty
    list. *)
Theorem listing_error_propagates fuel self c e fs :
  s3 self = Some c →
  list_objects_v2 c (bucket_name self) None = Err e →
  is_ClientError e = false →
  list_bucket_contents (S fuel) self fs
  = (Raise e, fs, [ListObjectsV2 (bucket_name self) None]).
Proof.
  intros Hc Herr He. unfold list_bucket_contents. cbn [list_loop].
  unfold_M. rewrite Hc. simpl. by rewrite Herr, He.
Qed.

Lemma listing_error_propagates_witness :
  s3 (downloader (Some unreachable)) = Some unreachable
  ∧ list_objects_v2 unreachable "rd0cg4jfje" None
    = Err (BotoCoreError "EndpointConnectionError")
  ∧ is_ClientError (BotoCoreError "EndpointConnectionError") = false
  ∧ list_bucket_contents 1 (downloader (Some unreachable)) ∅
    = (Raise (BotoCoreError "EndpointConnectionError"), ∅,
       [ListObjectsV2 "rd0cg4jfje" None]).
Proof.
  repeat (split; [reflexivity|]).
  exact (listing_error_propagates 0 (downloader (Some unreachable))
           unreachable (BotoCoreError "EndpointConnectionError") ∅
           eq_refl eq_refl eq_refl).
Defined.

(** ** The run of [download_model] *)

Lemma download_model_empty js fuel now self fs fs1 tr1 :
  list_bucket_contents fuel self fs = (Ret [], fs1, tr1) →
  download_model js fuel now self fs
  = (Ret false, fs,
     [Print (Msg_starting (bucket_name self));
      Print (Msg_saved_to (model_path self)); Makedirs (model_path self);
      Print Msg_listing] ++ tr1 ++ [Print Msg_no_files]).
Proof.
  intros Hlist.
  destruct (list_bucket_contents_files _ _ _ _ _ _ Hlist) as (-> & _ & _).
  unfold download_model. unfold_M. by rewrite Hlist.
Qed.

(** C4. When the listing returns no object, [download_model] returns
    [False], leaves the local files as they were, and its trace holds no
    entry into [download_file] and no metadata or transfer call. *)
Theorem empty_listing_no_download js fuel now self fs fs1 tr1 :
  list_bucket_contents fuel self fs = (Ret [], fs1, tr1) →
  ∃ tr,
    download_model js fuel now self fs = (Ret false, fs, tr)
    ∧ Forall (λ ev, is_download_event ev = false) tr
    ∧ steps tr = 0.
Proof.
  intros Hlist.
  destruct (list_bucket_contents_files _ _ _ _ _ _ Hlist) as (_ & Hev & _).
  eexists. split; [exact (download_model_empty js _ now _ _ _ _ Hlist)|].
  split.
  - apply Forall_app. split; [by repeat constructor|].
    apply Forall_app. split; [by apply listing_no_download|].
    by repeat constructor.
  - rewrite !steps_app, (listing_steps _ Hev). reflexivity.
Qed.

Lemma empty_listing_no_download_witness :
  list_bucket_contents 1 (downloader (Some empty_bucket)) ∅
  = (Ret [], ∅, [ListObjectsV2 "rd0cg4jfje" None])
  ∧ ∃ tr,
      download_model json_size0 1 0 (downloader (Some empty_bucket)) ∅
      = (Ret false, ∅, tr)
      ∧ Forall (λ ev, is_download_event ev = false) tr
      ∧ steps tr = 0.
Proof.
  split; [reflexivity|].
  exact (empty_listing_no_download json_size0 1 0
           (downloader (Some empty_bucket)) ∅ ∅
           [ListObjectsV2 "rd0cg4jfje" None] eq_refl).
Defined.



(** C3 (the code departs from the claim). The listing returns one object,
    [download_metadata.json/x], and the store serves it. The run handles
    the object without a failure: the file lands below the manifest path,
    which is thereby a directory. Opening it for the manifest then raises,
    so [download_model] returns no flag at all and writes no manifest. *)
Theorem manifest_path_made_directory :
  list_bucket_contents 1 (downloader (Some below_manifest_store)) ∅
  = (Ret [below_manifest], ∅, [ListObjectsV2 "rd0cg4jfje" None])
  ∧ (download_model json_size0 1 0 (downloader (Some below_manifest_store))
       ∅).1.1 = Raise (OSError "Is a directory")
  ∧ (download_model json_size0 1 0 (downloader (Some below_manifest_store))
       ∅).1.2 !! "/model/download_metadata.json/x" = Some (Blob 5%N)
  ∧ (download_model json_size0 1 0 (downloader (Some below_manifest_store))
       ∅).1.2 !! "/model/download_metadata.json" = None
  ∧ steps (download_model json_size0 1 0
             (downloader (Some below_manifest_store)) ∅).2 = 1
  ∧ failures (download_model json_size0 1 0
                (downloader (Some below_manifest_store)) ∅).2 = 0.
Proof. vm_compute. repeat split. Qed.

(** C2 (the claim fails as stated). Against a bucket whose listing returns
    no object the run completes, returning [False], and no manifest has
    been written: the manifest path is still absent. *)
Lemma empty_bucket_writes_no_manifest :
  list_bucket_contents 1 (downloader (Some empty_bucket)) ∅
  = (Ret [], ∅, [ListObjectsV2 "rd0cg4jfje" None])
  ∧ (download_model json_size0 1 0 (downloader (Some empty_bucket)) ∅).1.1
    = Ret false
  ∧ (download_model json_size0 1 0 (downloader (Some empty_bucket)) ∅).1.2
      !! manifest_path (downloader (Some empty_bucket))
    = None.
Proof. repeat split. Qed.

Lemma below_irrefl p : OsPath.below p p = false.
Proof.
  unfold OsPath.below. induction p as [|a p IH]; [reflexivity|].
  simpl. by destruct (Ascii.ascii_dec a a).
Qed.

Lemma has_entry_below_false fs dir :
  (∀ p, is_Some (fs !! p) → OsPath.below dir p = false) →
  has_entry_below fs dir = false.
Proof.
  intros Hnone. unfold has_entry_below.
  destruct (existsb _ _) eqn:Hex; [|done].
  apply existsb_exists in Hex as ([p c] & Hin & Hbelow).
  apply list_elem_of_In, elem_of_map_to_list in Hin.
  rewrite Hnone in Hbelow; [done | by eexists].
Qed.

Lemma has_entry_below_true fs dir p :
  is_Some (fs !! p) → OsPath.below dir p = true →
  has_entry_below fs dir = true.
Proof.
  intros [c Hc] Hbelow. apply existsb_exists. exists (p, c).
  split; [|done]. by apply list_elem_of_In, elem_of_map_to_list.
Qed.

Lemma manifest_free_is_directory fs mp :
  manifest_free fs mp → is_directory fs mp = false.
Proof.
  intros [Hdir Hbelow]. unfold is_directory.
  rewrite (has_entry_below_false _ _ Hbelow).
  destruct (fs !! mp) as [[| |n]|] eqn:Hlook; try done.
  by destruct (Hdir n).
Qed.

Lemma obj_files_dom js fs self o p :
  is_Some (obj_files js fs self o !! p) →
  is_Some (fs !! p) ∨ p = destination self o.
Proof.
  unfold obj_files. destruct (up_to_date js fs self o); [by left|].
  destruct (lands fs self (Key o) (destination self o)); [|by left].
  rewrite lookup_insert. case_decide; [by right | by left].
Qed.

Lemma obj_files_not_directory js fs self o p :
  (∀ n, fs !! p ≠ Some (Directory n)) →
  ∀ n, obj_files js fs self o !! p ≠ Some (Directory n).
Proof.
  intros Hdir n. unfold obj_files.
  destruct (up_to_date js fs self o); [done|].
  destruct (lands fs self (Key o) (destination self o)); [|done].
  rewrite lookup_insert. by case_decide.
Qed.

(** The loop leaves a manifest path free that was free, when no destination
    lies below it. *)
Lemma manifest_free_loop js self objs fs mp :
  manifest_free fs mp →
  (∀ obj, obj ∈ objs → OsPath.below mp (destination self obj) = false) →
  manifest_free (loop_files js self objs fs) mp.
Proof.
  revert fs. induction objs as [|o objs IH]; intros fs Hfree Hobjs; [done|].
  cbn [loop_files]. apply IH.
  - destruct Hfree as [Hdir Hbelow]. split.
    + by apply obj_files_not_directory.
    + intros p [Hp | ->]%obj_files_dom; [by apply Hbelow|].
      apply Hobjs. by left.
  - intros obj Hobj. apply Hobjs. by right.
Qed.

Lemma manifest_free_insert fs mp m :
  manifest_free fs mp → manifest_free (<[mp := Manifest m]> fs) mp.
Proof.
  intros [Hdir Hbelow]. split.
  - intros n. by rewrite lookup_insert_eq.
  - intros p. rewrite lookup_insert. case_decide as Hp; [|by apply Hbelow].
    intros _. subst p. apply below_irrefl.
Qed.

Lemma tidy_files_manifest_free self fs :
  tidy_files self fs → manifest_free fs (manifest_path self).
Proof.
  intros [Hdir Hfs]. split; [done|]. intros p Hp. by apply Hfs.
Qed.

(** After the loop of a plain listing the manifest can be written. *)
Lemma plain_listing_writable js self objs fs :
  plain_listing self objs →
  tidy_files self fs →
  is_directory (loop_files js self objs fs) (manifest_path self) = false.
Proof.
  intros [_ Hkeys] Htidy.
  apply manifest_free_is_directory, manifest_free_loop.
  - by apply tidy_files_manifest_free.
  - intros obj Hobj. by apply Hkeys.
Qed.

(** C2 (amended). For every run in which the listing returns at least one
    object, with or without failed downloads, the keys being plain relative
    paths none of which lies below the name of the manifest, and the
    manifest path not being a directory in the local state,
    [download_model] returns and the manifest path then holds a manifest of
    this run, which [get_model_info] reads back: [total_files] is the
    number of listed objects, [successful_downloads] and [failed_downloads]
    sum to it, [failed_downloads] is the number of failed downloads, and
    the time, bucket and endpoint are those of the run. *)
Theorem manifest_written_after_listing js fuel now self fs objs fs1 tr1 :
  list_bucket_contents fuel self fs = (Ret objs, fs1, tr1) →
  objs ≠ [] →
  plain_listing self objs →
  tidy_files self fs →
  ∃ ok fs' tr m,
    download_model js fuel now self fs = (Ret ok, fs', tr)
    ∧ fs' !! manifest_path self = Some (Manifest m)
    ∧ get_model_info self fs' = (Ret (Some m), fs', [])
    ∧ total_files m = length objs
    ∧ successful_downloads m + failed_downloads m = total_files m
    ∧ failed_downloads m = failures tr
    ∧ download_time m = now
    ∧ md_bucket_name m = bucket_name self
    ∧ md_endpoint_url m = endpoint_url self.
Proof.
  intros Hlist Hne Hplain Htidy.
  destruct (download_model_run js fuel now self fs objs fs1 tr1 Hlist Hne
              (plain_listing_writable js self objs fs Hplain Htidy))
    as (tr & Hrun & Hfail & _).
  eexists _, _, tr, _. split; [exact Hrun|].
  split; [apply lookup_insert_eq|].
  split.
  { unfold get_model_info, json_load. unfold_M.
    by rewrite !lookup_insert_eq. }
  cbn.
  split; [done|].
  split; [by rewrite count_true_false, length_loop_oks|].
  by rewrite Hfail.
Qed.

Lemma tidy_files_empty self : tidy_files self ∅.
Proof.
  split; [intros n; by rewrite lookup_empty|].
  intros p [c Hp]. by rewrite lookup_empty in Hp.
Qed.

Lemma tidy_files_singleton self q n :
  OsPath.canonical q = true →
  OsPath.below (manifest_path self) q = false →
  tidy_files self {[q := Blob n]}.
Proof.
  intros Hcan Hbelow. split.
  - intros k Hk. apply lookup_singleton_Some in Hk as [_ Hk]. discriminate Hk.
  - intros p [c Hp]. by apply lookup_singleton_Some in Hp as [<- _].
Qed.

(** After a run of a plain listing the manifest path holds the manifest and
    can be written again. *)
Lemma manifest_free_after_run js self objs fs m :
  plain_listing self objs →
  tidy_files self fs →
  manifest_free
    (<[manifest_path self := Manifest m]> (loop_files js self objs fs))
    (manifest_path self).
Proof.
  intros [_ Hkeys] Htidy. apply manifest_free_insert, manifest_free_loop.
  - by apply tidy_files_manifest_free.
  - intros obj Hobj. by apply Hkeys.
Qed.

Lemma two_files_plain :
  plain_listing (downloader (Some two_files_store)) two_files.
Proof.
  split; [reflexivity|]. intros obj Hobj.
  repeat (apply elem_of_cons in Hobj as [-> | Hobj]; [by vm_compute|]).
  by apply elem_of_nil in Hobj.
Qed.

Lemma two_files_no_nesting :
  no_nesting (downloader (Some two_files_store)) two_files.
Proof.
  intros o1 o2 Ho1 Ho2.
  repeat (apply elem_of_cons in Ho1 as [-> | Ho1]);
    [| |by apply elem_of_nil in Ho1];
    (repeat (apply elem_of_cons in Ho2 as [-> | Ho2];
             [by vm_compute|]); by apply elem_of_nil in Ho2).
Qed.

Lemma two_files_distinct :
  NoDup (manifest_path (downloader (Some two_files_store))
         :: (destination (downloader (Some two_files_store)) <$> two_files)).
Proof. apply (bool_decide_unpack _). by vm_compute. Qed.

Lemma manifest_written_after_listing_witness :
  list_bucket_contents 1 (downloader (Some two_files_store)) ∅
  = (Ret two_files, ∅, [ListObjectsV2 "rd0cg4jfje" None])
  ∧ two_files ≠ []
  ∧ plain_listing (downloader (Some two_files_store)) two_files
  ∧ tidy_files (downloader (Some two_files_store)) ∅
  ∧ ∃ ok fs' tr m,
      download_model json_size0 1 7 (downloader (Some two_files_store)) ∅
      = (Ret ok, fs', tr)
      ∧ fs' !! manifest_path (downloader (Some two_files_store))
        = Some (Manifest m)
      ∧ get_model_info (downloader (Some two_files_store)) fs'
        = (Ret (Some m), fs', [])
      ∧ total_files m = length two_files
      ∧ successful_downloads m + failed_downloads m = total_files m
      ∧ failed_downloads m = failures tr
      ∧ download_time m = 7%Z
      ∧ md_bucket_name m = bucket_name (downloader (Some two_files_store))
      ∧ md_endpoint_url m = endpoint_url (downloader (Some two_files_store)).
Proof.
  split; [reflexivity|]. split; [discriminate|].
  split; [exact two_files_plain|]. split; [apply tidy_files_empty|].
  refine (manifest_written_after_listing json_size0 1 7
            (downloader (Some two_files_store)) ∅ two_files ∅
            [ListObjectsV2 "rd0cg4jfje" None] eq_refl _ two_files_plain
            (tidy_files_empty _)).
  discriminate.
Defined.

(** X25. When the listing returns at least one object, the keys being plain
    relative paths none of which lies below the name of the manifest, and
    the manifest path is not a directory, [download_model] returns: its
    trace holds one step (a skip line or an entry into [download_file]) per
    listed object, with the step of every listed object among them, so a
    failed download does not end the run, and the flag it returns is [True]
    exactly when the failure count it prints, the number of failed
    downloads, is zero. *)
Theorem plain_listing_run_returns js fuel now self fs objs fs1 tr1 :
  list_bucket_contents fuel self fs = (Ret objs, fs1, tr1) →
  objs ≠ [] →
  plain_listing self objs →
  tidy_files self fs →
  ∃ ok fs' tr failed_count,
    download_model js fuel now self fs = (Ret ok, fs', tr)
    ∧ steps tr = length objs
    ∧ (∀ obj, obj ∈ objs →
         Print (Msg_already_exists (Key obj)) ∈ tr
         ∨ Call_download_file (Key obj) (destination self obj) ∈ tr)
    ∧ Print (Msg_failed failed_count) ∈ tr
    ∧ failed_count = failures tr
    ∧ (ok = true ↔ failed_count = 0).
Proof.
  intros Hlist Hne Hplain Htidy.
  destruct (download_model_run js fuel now self fs objs fs1 tr1 Hlist Hne
              (plain_listing_writable js self objs fs Hplain Htidy))
    as (tr & Hrun & Hfail & Hsteps & Hprint & Hin).
  eexists _, _, tr, (count_false (loop_oks js self objs fs)).
  split; [exact Hrun|]. split; [exact Hsteps|]. split; [exact Hin|].
  split; [exact Hprint|]. split; [by rewrite Hfail | apply Nat.eqb_eq].
Qed.

Lemma plain_listing_run_returns_witness :
  list_bucket_contents 1 (downloader (Some two_files_store)) ∅
  = (Ret two_files, ∅, [ListObjectsV2 "rd0cg4jfje" None])
  ∧ two_files ≠ []
  ∧ plain_listing (downloader (Some two_files_store)) two_files
  ∧ tidy_files (downloader (Some two_files_store)) ∅
  ∧ (download_model json_size0 1 0 (downloader (Some two_files_store))
       ∅).1.1 = Ret false
  ∧ ∃ ok fs' tr failed_count,
      download_model json_size0 1 0 (downloader (Some two_files_store)) ∅
      = (Ret ok, fs', tr)
      ∧ steps tr = length two_files
      ∧ (∀ obj, obj ∈ two_files →
           Print (Msg_already_exists (Key obj)) ∈ tr
           ∨ Call_download_file (Key obj)
               (destination (downloader (Some two_files_store)) obj) ∈ tr)
      ∧ Print (Msg_failed failed_count) ∈ tr
      ∧ failed_count = failures tr
      ∧ (ok = true ↔ failed_count = 0).
Proof.
  split; [reflexivity|]. split; [discriminate|].
  split; [exact two_files_plain|]. split; [apply tidy_files_empty|].
  split; [reflexivity|].
  refine (plain_listing_run_returns json_size0 1 0
            (downloader (Some two_files_store)) ∅ two_files ∅
            [ListObjectsV2 "rd0cg4jfje" None] eq_refl _ two_files_plain
            (tidy_files_empty _)).
  discriminate.
Defined.

(** ** Two runs in succession *)

Lemma up_to_date_ext js fs fs' self o :
  fs !! destination self o = fs' !! destination self o →
  up_to_date js fs self o = up_to_date js fs' self o.
Proof. unfold up_to_date. by intros ->. Qed.

Lemma obj_ok_ext js fs fs' self o :
  fs !! destination self o = fs' !! destination self o →
  obj_ok js fs self o = obj_ok js fs' self o.
Proof. unfold obj_ok, up_to_date, lands. by intros ->. Qed.

Lemma lands_transfer fs self key p w :
  lands fs self key p = Some w → transfer self key p = Some w.
Proof. unfold lands. by destruct (fs !! p) as [[| |k]|]. Qed.

(** The loop body touches the destination of its object and no other
    path. *)
Lemma obj_files_lookup_ne js fs self o p :
  p ≠ destination self o → obj_files js fs self o !! p = fs !! p.
Proof.
  intros Hp. unfold obj_files.
  destruct (up_to_date js fs self o); [done|].
  destruct (lands fs self (Key o) (destination self o)); [|done].
  by apply lookup_insert_ne.
Qed.

Lemma loop_files_lookup_notin js self objs fs p :
  p ∉ (destination self <$> objs) →
  loop_files js self objs fs !! p = fs !! p.
Proof.
  revert fs. induction objs as [|o objs IH]; intros fs Hp; [done|].
  cbn [loop_files]. rewrite fmap_cons, not_elem_of_cons in Hp.
  destruct Hp as [Hne Hp].
  rewrite (IH _ Hp). by apply obj_files_lookup_ne.
Qed.

(** What the loop body leaves at its own destination depends on what it
    found there. *)
Lemma obj_files_lookup_self_ext js fs fs' self o :
  fs !! destination self o = fs' !! destination self o →
  obj_files js fs self o !! destination self o
  = obj_files js fs' self o !! destination self o.
Proof.
  intros H.
  assert (Hlands : lands fs' self (Key o) (destination self o)
                   = lands fs self (Key o) (destination self o))
    by (unfold lands; by rewrite H).
  unfold obj_files. rewrite <- (up_to_date_ext _ _ _ _ _ H), Hlands.
  destruct (up_to_date js fs self o); [done|].
  destruct (lands fs self (Key o) (destination self o)); [|done].
  by rewrite !lookup_insert_eq.
Qed.

(** With pairwise distinct destinations every object meets its destination
    as the run found it. *)
Lemma loop_oks_distinct js self objs fs :
  NoDup ((destination self <$> objs)) →
  loop_oks js self objs fs = obj_ok js fs self <$> objs.
Proof.
  revert fs. induction objs as [|o objs IH]; intros fs Hnd; [done|].
  rewrite fmap_cons in Hnd. apply NoDup_cons in Hnd as [Hfresh Hnd].
  cbn [loop_oks]. rewrite fmap_cons. f_equal. rewrite (IH _ Hnd).
  apply list_fmap_ext. intros i o' Ho'. apply obj_ok_ext.
  apply obj_files_lookup_ne. intros Heq. apply Hfresh. rewrite <- Heq.
  apply list_elem_of_fmap_2. by eapply list_elem_of_lookup_2.
Qed.

Lemma loop_files_lookup_in js self objs fs o :
  NoDup ((destination self <$> objs)) →
  o ∈ objs →
  loop_files js self objs fs !! destination self o
  = obj_files js fs self o !! destination self o.
Proof.
  revert fs. induction objs as [|o1 objs IH]; intros fs Hnd Ho.
  - by apply elem_of_nil in Ho.
  - rewrite fmap_cons in Hnd. apply NoDup_cons in Hnd as [Hfresh Hnd].
    cbn [loop_files]. apply elem_of_cons in Ho as [-> | Ho].
    + by apply loop_files_lookup_notin.
    + rewrite (IH _ Hnd Ho). apply obj_files_lookup_self_ext.
      apply obj_files_lookup_ne. intros Heq. apply Hfresh. rewrite <- Heq.
      by apply list_elem_of_fmap_2.
Qed.

(** After a run over distinct destinations, none of them the manifest path,
    a second run counts every object as the first did. *)
Lemma obj_ok_second_run js self objs fs m o :
  NoDup (destination self <$> objs) →
  manifest_path self ∉ destination self <$> objs →
  o ∈ objs →
  obj_ok js (<[manifest_path self := Manifest m]> (loop_files js self objs fs))
    self o
  = obj_ok js fs self o.
Proof.
  intros Hnd Hmp Ho.
  assert (Hlook :
    <[manifest_path self := Manifest m]> (loop_files js self objs fs)
      !! destination self o
    = obj_files js fs self o !! destination self o).
  { rewrite lookup_insert_ne.
    - by apply loop_files_lookup_in.
    - intros Heq. apply Hmp. rewrite Heq. by apply list_elem_of_fmap_2. }
  unfold obj_files in Hlook.
  destruct (up_to_date js fs self o) eqn:Hutd; [by apply obj_ok_ext|].
  destruct (lands fs self (Key o) (destination self o)) as [w|] eqn:Hlands;
    [|by apply obj_ok_ext].
  rewrite lookup_insert_eq in Hlook.
  unfold obj_ok at 2. rewrite Hutd, Hlands.
  unfold obj_ok, lands. rewrite Hlook, (lands_transfer _ _ _ _ _ Hlands).
  by rewrite orb_true_r.
Qed.

Lemma loop_oks_second_run js self objs fs m :
  NoDup (manifest_path self :: (destination self <$> objs)) →
  loop_oks js self objs
    (<[manifest_path self := Manifest m]> (loop_files js self objs fs))
  = loop_oks js self objs fs.
Proof.
  intros [Hmp Hnd]%NoDup_cons.
  rewrite !loop_oks_distinct by done.
  apply list_fmap_ext. intros i o Ho.
  apply obj_ok_second_run; [done | done |].
  by eapply list_elem_of_lookup_2.
Qed.

Lemma manifests_agree_refl c : manifests_agree c c.
Proof. by destruct c as [[n|m|n]|]. Qed.

(** C9 (the claim fails as stated). The store lists the keys [a] and
    [/model/a], both of five bytes and both destined for [/model/a], and
    refuses the transfer of [a]. Starting from an empty directory the first
    run records one success and one failure; the second, against the same
    store, finds a five-byte file at the shared destination and records two
    successes and no failure. *)
Lemma colliding_keys_change_manifest :
  list_bucket_contents 1 (downloader (Some colliding_store)) ∅
  = (Ret colliding, ∅, [ListObjectsV2 "rd0cg4jfje" None])
  ∧ colliding_first.1.2 !! "/model/download_metadata.json"
    = Some (Manifest {|
        download_time := 100; md_bucket_name := "rd0cg4jfje";
        md_endpoint_url := "https://s3api-eu-cz-1.runpod.io";
        total_files := 2; successful_downloads := 1;
        failed_downloads := 1 |})
  ∧ colliding_second.1.2 !! "/model/download_metadata.json"
    = Some (Manifest {|
        download_time := 200; md_bucket_name := "rd0cg4jfje";
        md_endpoint_url := "https://s3api-eu-cz-1.runpod.io";
        total_files := 2; successful_downloads := 2;
        failed_downloads := 0 |})
  ∧ ¬ manifests_agree
        (colliding_first.1.2 !! "/model/download_metadata.json")
        (colliding_second.1.2 !! "/model/download_metadata.json").
Proof.
  split; [reflexivity|].
  assert (H1 : colliding_first.1.2 !! "/model/download_metadata.json"
    = Some (Manifest {|
        download_time := 100; md_bucket_name := "rd0cg4jfje";
        md_endpoint_url := "https://s3api-eu-cz-1.runpod.io";
        total_files := 2; successful_downloads := 1;
        failed_downloads := 1 |})) by (vm_compute; reflexivity).
  assert (H2 : colliding_second.1.2 !! "/model/download_metadata.json"
    = Some (Manifest {|
        download_time := 200; md_bucket_name := "rd0cg4jfje";
        md_endpoint_url := "https://s3api-eu-cz-1.runpod.io";
        total_files := 2; successful_downloads := 2;
        failed_downloads := 0 |})) by (vm_compute; reflexivity).
  split; [exact H1|]. split; [exact H2|].
  rewrite H1, H2. unfold manifests_agree, same_except_time. simpl.
  intros (_ & _ & _ & Hs & _). discriminate Hs.
Qed.

(** C9 (amended). Let the same downloader, against a store that answers
    every request the same way both times, run twice in succession, the
    second run starting from the files the first one left. Let the listed
    keys be plain relative paths (no empty, [.] or [..] segment) with
    pairwise distinct destinations, none of them the manifest path or below
    it and none of them below another, and let the manifest path not be a
    directory at the start. Then what the manifest path holds after the
    second run agrees with what it held after the first in every field but
    [download_time]; when the listing is not empty both runs return and
    these are the manifests of the two runs, stamped with the time of
    each. *)
Theorem sync_twice_same_manifest js fuel t1 t2 self fs objs fs0 tr0 :
  list_bucket_contents fuel self fs = (Ret objs, fs0, tr0) →
  NoDup (manifest_path self :: (destination self <$> objs)) →
  plain_listing self objs →
  no_nesting self objs →
  tidy_files self fs →
  manifests_agree
    ((download_model js fuel t1 self fs).1.2 !! manifest_path self)
    ((download_model js fuel t2 self
        (download_model js fuel t1 self fs).1.2).1.2 !! manifest_path self)
  ∧ (objs ≠ [] →
     ∃ m1 m2 ok1 ok2,
       (download_model js fuel t1 self fs).1.1 = Ret ok1
       ∧ (download_model js fuel t2 self
            (download_model js fuel t1 self fs).1.2).1.1 = Ret ok2
       ∧ (download_model js fuel t1 self fs).1.2 !! manifest_path self
         = Some (Manifest m1)
       ∧ (download_model js fuel t2 self
            (download_model js fuel t1 self fs).1.2).1.2
           !! manifest_path self
         = Some (Manifest m2)
       ∧ download_time m1 = t1
       ∧ download_time m2 = t2
       ∧ same_except_time m1 m2).
Proof.
  intros Hlist Hnd Hplain _ Htidy.
  destruct (list_bucket_contents_files _ _ _ _ _ _ Hlist) as (-> & _ & Hany).
  destruct (decide (objs = [])) as [-> | Hne].
  - rewrite (download_model_empty js _ t1 _ _ _ _ Hlist). cbn [fst snd].
    rewrite (download_model_empty js _ t2 _ _ _ _ Hlist). cbn [fst snd].
    split; [apply manifests_agree_refl | done].
  - assert (Hbelow : ∀ obj, obj ∈ objs →
              OsPath.below (manifest_path self) (destination self obj)
              = false) by (intros obj Hobj; by apply Hplain).
    assert (Hfree1 : manifest_free (loop_files js self objs fs)
                       (manifest_path self))
      by (by apply manifest_free_loop; [apply tidy_files_manifest_free|]).
    destruct (download_model_run js fuel t1 self fs objs fs tr0 Hlist Hne
                (manifest_free_is_directory _ _ Hfree1))
      as (tr1 & Hrun1 & _).
    rewrite Hrun1. cbn [fst snd].
    match goal with
    | |- context [download_model js fuel t2 self ?fs1] =>
        destruct (download_model_run js fuel t2 self fs1 objs fs1 tr0
                    (Hany fs1) Hne) as (tr2 & Hrun2 & _);
          [by apply manifest_free_is_directory, manifest_free_loop;
             [apply manifest_free_insert|] |]
    end.
    rewrite Hrun2. cbn [fst snd].
    rewrite (loop_oks_second_run _ _ _ _ _ Hnd).
    rewrite !lookup_insert_eq.
    split; [by repeat split|].
    intros _. eexists _, _, _, _.
    do 4 (split; [reflexivity|]).
    by repeat split.
Qed.

Lemma weights_plain :
  plain_listing (downloader (Some weights_store)) [weights].
Proof.
  split; [reflexivity|]. intros obj Hobj.
  apply list_elem_of_singleton in Hobj as ->. by vm_compute.
Qed.

Lemma weights_no_nesting :
  no_nesting (downloader (Some weights_store)) [weights].
Proof.
  intros o1 o2 ->%list_elem_of_singleton ->%list_elem_of_singleton.
  apply below_irrefl.
Qed.

Lemma sync_twice_same_manifest_witness :
  list_bucket_contents 1 (downloader (Some two_files_store)) ∅
  = (Ret two_files, ∅, [ListObjectsV2 "rd0cg4jfje" None])
  ∧ NoDup (manifest_path (downloader (Some two_files_store))
           :: (destination (downloader (Some two_files_store))
                 <$> two_files))
  ∧ plain_listing (downloader (Some two_files_store)) two_files
  ∧ no_nesting (downloader (Some two_files_store)) two_files
  ∧ tidy_files (downloader (Some two_files_store)) ∅
  ∧ ∃ m1 m2 ok1 ok2,
      (download_model json_size0 1 100 (downloader (Some two_files_store))
         ∅).1.1 = Ret ok1
      ∧ (download_model json_size0 1 200 (downloader (Some two_files_store))
           (download_model json_size0 1 100
              (downloader (Some two_files_store)) ∅).1.2).1.1 = Ret ok2
      ∧ (download_model json_size0 1 100 (downloader (Some two_files_store))
         ∅).1.2 !! "/model/download_metadata.json"
      = Some (Manifest m1)
      ∧ (download_model json_size0 1 200 (downloader (Some two_files_store))
           (download_model json_size0 1 100
              (downloader (Some two_files_store)) ∅).1.2).1.2
          !! "/model/download_metadata.json"
        = Some (Manifest m2)
      ∧ download_time m1 = 100%Z
      ∧ download_time m2 = 200%Z
      ∧ same_except_time m1 m2.
Proof.
  split; [reflexivity|]. split; [exact two_files_distinct|].
  split; [exact two_files_plain|]. split; [exact two_files_no_nesting|].
  split; [apply tidy_files_empty|].
  refine (proj2 (sync_twice_same_manifest json_size0 1 100 200
            (downloader (Some two_files_store)) ∅ two_files ∅
            [ListObjectsV2 "rd0cg4jfje" None] eq_refl two_files_distinct
            two_files_plain two_files_no_nesting (tidy_files_empty _)) _).
  discriminate.
Defined.

(** ** Further properties: [download_file] *)

(** X1. [download_file] never raises, whatever the client answers and even
    without a client: it returns a flag. When the flag is [True] the
    destination holds the transferred bytes and no error line was printed;
    when it is [False] the local files are as before and exactly one error
    line was printed. *)
Theorem download_file_never_raises self key p fs :
  ∃ ok fs' tr,
    download_file self key p fs = (Ret ok, fs', tr)
    ∧ (ok = true → (∃ w, fs' = <[p := Blob w]> fs) ∧ failures tr = 0)
    ∧ (ok = false → fs' = fs ∧ failures tr = 1).
Proof.
  destruct (download_file_run self key p fs) as (tr & Hrun & Hfail & _).
  eexists _, _, _. split; [exact Hrun|].
  assert (Hfail' : failures (Call_download_file key p :: tr) = failures tr)
    by reflexivity.
  rewrite Hfail'.
  destruct (lands fs self key p) as [w|]; split; try done.
  intros _. split; [by exists w | done].
Qed.

(** X2. When the metadata call fails, [download_file] returns [False]
    without creating a directory and without asking for the transfer: the
    trace is the entry, the one [head_object] call and the error line, which
    is the [ClientError] line for a [ClientError] and the unexpected-error
    line otherwise. *)
Theorem head_failure_skips_transfer self c key p e fs :
  s3 self = Some c →
  head_object c (bucket_name self) key = Err e →
  download_file self key p fs
  = (Ret false, fs,
     [Call_download_file key p; HeadObject (bucket_name self) key;
      Print (if is_ClientError e then Msg_error_downloading key e
             else Msg_unexpected_error_downloading key e)]).
Proof.
  intros Hc Hhead. unfold download_file. unfold_M.
  rewrite Hc. simpl. rewrite Hhead. simpl.
  by destruct (is_ClientError e).
Qed.

Lemma head_failure_skips_transfer_witness :
  s3 (downloader (Some empty_bucket)) = Some empty_bucket
  ∧ head_object empty_bucket "rd0cg4jfje" "weights.bin"
    = Err (ClientError "Not Found")
  ∧ download_file (downloader (Some empty_bucket)) "weights.bin"
      "/model/weights.bin" ∅
    = (Ret false, ∅,
       [Call_download_file "weights.bin" "/model/weights.bin";
        HeadObject "rd0cg4jfje" "weights.bin";
        Print (Msg_error_downloading "weights.bin"
                 (ClientError "Not Found"))]).
Proof.
  split; [reflexivity|]. split; [reflexivity|].
  exact (head_failure_skips_transfer (downloader (Some empty_bucket))
           empty_bucket "weights.bin" "/model/weights.bin"
           (ClientError "Not Found") ∅ eq_refl eq_refl).
Defined.

(** X3. Without a client (the [None] of missing credentials)
    [download_file] still returns: the [AttributeError] of the first
    attribute access is caught by the catch-all clause, no API call is made
    and the flag is [False]. *)
Theorem download_file_without_client self key p fs :
  s3 self = None →
  download_file self key p fs
  = (Ret false, fs,
     [Call_download_file key p;
      Print (Msg_unexpected_error_downloading key
               (AttributeError
                  "'NoneType' object has no attribute 'head_object'"))]).
Proof.
  intros Hc. unfold download_file. unfold_M. by rewrite Hc.
Qed.

Lemma download_file_without_client_witness :
  s3 (downloader None) = None
  ∧ download_file (downloader None) "weights.bin" "/model/weights.bin" ∅
    = (Ret false, ∅,
       [Call_download_file "weights.bin" "/model/weights.bin";
        Print (Msg_unexpected_error_downloading "weights.bin"
                 (AttributeError
                    "'NoneType' object has no attribute 'head_object'"))]).
Proof.
  split; [reflexivity|].
  exact (download_file_without_client (downloader None) "weights.bin"
           "/model/weights.bin" ∅ eq_refl).
Defined.

(** ** Further properties: the listing *)

Lemma list_bucket_contents_pages_witness :
  s3 (downloader (Some (two_pages [weights] colliding)))
  = Some (two_pages [weights] colliding)
  ∧ pages_from (two_pages [weights] colliding) "rd0cg4jfje" None
      [[weights]; colliding]
  ∧ length [[weights]; colliding] ≤ 2
  ∧ ∃ tr,
      list_bucket_contents 2
        (downloader (Some (two_pages [weights] colliding))) ∅
      = (Ret (concat [[weights]; colliding]), ∅, tr)
      ∧ length tr = length [[weights]; colliding].
Proof.
  assert (Hpages : pages_from (two_pages [weights] colliding) "rd0cg4jfje"
                     None [[weights]; colliding]).
  { eapply pages_more; [reflexivity | reflexivity | reflexivity
                       | reflexivity | discriminate |].
    eapply pages_last; reflexivity. }
  split; [reflexivity|]. split; [exact Hpages|]. split; [simpl; lia|].
  refine (list_bucket_contents_pages
            (downloader (Some (two_pages [weights] colliding)))
            (two_pages [weights] colliding) [[weights]; colliding] 2 ∅
            eq_refl Hpages _).
  simpl. lia.
Defined.

(** X5. A [ClientError] on the second page request throws away the objects
    of the first page: the method prints the listing error and returns the
    empty list, so [download_model] reports that the bucket has no files,
    returns [False] and leaves the local files alone. *)
Theorem listing_error_discards_first_page
    js fuel now self c r next msg fs :
  s3 self = Some c →
  list_objects_v2 c (bucket_name self) None = Ok r →
  IsTruncated r = Some true →
  NextContinuationToken r = Some next →
  next ≠ EmptyString →
  list_objects_v2 c (bucket_name self) (Some next) = Err (ClientError msg) →
  list_bucket_contents (S (S fuel)) self fs
  = (Ret [], fs,
     [ListObjectsV2 (bucket_name self) None;
      ListObjectsV2 (bucket_name self) (Some next);
      Print (Msg_error_listing (ClientError msg))])
  ∧ (download_model js (S (S fuel)) now self fs).1 = (Ret false, fs)
  ∧ Print Msg_no_files ∈ (download_model js (S (S fuel)) now self fs).2.
Proof.
  intros Hc Hfirst Htrunc Hnext Hne Hsecond.
  assert (Htruthy : String.eqb next EmptyString = false)
    by (by destruct (String.eqb_spec next EmptyString)).
  assert (Hlist : list_bucket_contents (S (S fuel)) self fs
    = (Ret [], fs,
       [ListObjectsV2 (bucket_name self) None;
        ListObjectsV2 (bucket_name self) (Some next);
        Print (Msg_error_listing (ClientError msg))])).
  { unfold list_bucket_contents. cbn [list_loop]. unfold_M.
    rewrite Hc. simpl. rewrite Hfirst. simpl. rewrite Htrunc, Hnext. simpl.
    rewrite Htruthy. simpl. rewrite Hsecond. reflexivity. }
  split; [exact Hlist|].
  rewrite (download_model_empty js _ now _ _ _ _ Hlist). cbn [fst snd].
  split; [done|]. rewrite !elem_of_app, !list_elem_of_singleton. tauto.
Qed.

Lemma listing_error_discards_first_page_witness :
  list_bucket_contents 2 (downloader (Some second_page_refused)) ∅
  = (Ret [], ∅,
     [ListObjectsV2 "rd0cg4jfje" None;
      ListObjectsV2 "rd0cg4jfje" (Some "t1");
      Print (Msg_error_listing (ClientError "AccessDenied"))])
  ∧ (download_model json_size0 2 0 (downloader (Some second_page_refused))
       ∅).1 = (Ret false, ∅).
Proof.
  destruct (listing_error_discards_first_page json_size0 0 0
              (downloader (Some second_page_refused)) second_page_refused
              {| Contents := Some [ {| Key := "weights.bin"; Size := 7%N |} ];
                 IsTruncated := Some true;
                 NextContinuationToken := Some "t1" |}
              "t1" "AccessDenied" ∅ eq_refl eq_refl eq_refl eq_refl)
    as (Hlist & Hrun & _); [discriminate | reflexivity |].
  split; [exact Hlist | exact Hrun].
Defined.

(** A truncated response without a usable token sends the loop back to the
    first page. *)
Lemma list_loop_stuck self c r fuel acc tok fs :
  s3 self = Some c →
  list_objects_v2 c (bucket_name self) None = Ok r →
  IsTruncated r = Some true →
  truthy (NextContinuationToken r) = false →
  truthy tok = false →
  list_loop fuel self acc tok fs
  = (Diverge, fs, replicate fuel (ListObjectsV2 (bucket_name self) None)).
Proof.
  intros Hc Hresp Htrunc Hnext. revert acc tok.
  induction fuel as [|fuel IH]; intros acc tok Htok; [done|].
  cbn [list_loop]. unfold_M. rewrite Hc. simpl. rewrite Htok, Hresp. simpl.
  rewrite Htrunc. simpl. by rewrite (IH _ _ Hnext).
Qed.

(** X6. When the provider marks a page as truncated but gives no
    continuation token (none, or an empty one), the next request is the
    first request again: against a provider that answers it the same way
    the listing never returns. Whatever the fuel, the loop uses it up, one
    first-page request per unit. *)
Theorem truncated_without_token_never_ends self c r fs :
  s3 self = Some c →
  list_objects_v2 c (bucket_name self) None = Ok r →
  IsTruncated r = Some true →
  truthy (NextContinuationToken r) = false →
  ∀ fuel,
    list_bucket_contents fuel self fs
    = (Diverge, fs, replicate fuel (ListObjectsV2 (bucket_name self) None)).
Proof.
  intros Hc Hresp Htrunc Hnext fuel.
  unfold list_bucket_contents, try_except.
  by rewrite (list_loop_stuck self c r fuel [] None fs Hc Hresp Htrunc Hnext).
Qed.

Lemma truncated_without_token_never_ends_witness :
  s3 (downloader (Some stuck_store)) = Some stuck_store
  ∧ truthy None = false
  ∧ list_bucket_contents 3 (downloader (Some stuck_store)) ∅
    = (Diverge, ∅,
       [ListObjectsV2 "rd0cg4jfje" None; ListObjectsV2 "rd0cg4jfje" None;
        ListObjectsV2 "rd0cg4jfje" None]).
Proof.
  split; [reflexivity|]. split; [reflexivity|].
  exact (truncated_without_token_never_ends (downloader (Some stuck_store))
           stuck_store
           {| Contents := Some [ {| Key := "weights.bin"; Size := 7%N |} ];
              IsTruncated := Some true; NextContinuationToken := None |}
           ∅ eq_refl eq_refl eq_refl eq_refl 3).
Defined.

(** X7. The listing neither reads nor writes a local file and asks for no
    metadata or transfer: from every file map it gives the same outcome and
    the same trace, made of page requests and at most the listing error
    line, and it leaves the files as they are. *)
Theorem listing_leaves_files_alone fuel self :
  ∃ r tr,
    (∀ fs, list_bucket_contents fuel self fs = (r, fs, tr))
    ∧ Forall (λ ev, is_listing_event ev = true) tr
    ∧ Forall (λ ev, is_download_event ev = false) tr.
Proof.
  destruct (list_bucket_contents_run fuel self) as (r & tr & Hrun & Hev).
  exists r, tr. split; [exact Hrun|]. split; [exact Hev|].
  by apply listing_no_download.
Qed.

(** ** Further properties: the run of [download_model] *)

Lemma count_false_all_true bs :
  Forall (λ b, b = true) bs → count_false bs = 0 ∧ count_true bs = length bs.
Proof.
  induction 1 as [|b bs -> _ [IHf IHt]]; [done|].
  rewrite count_false_cons, count_true_cons, IHf, IHt. done.
Qed.

Lemma loop_oks_all_true js self objs fs :
  (∀ obj fs', obj ∈ objs → obj_ok js fs' self obj = true) →
  Forall (λ b, b = true) (loop_oks js self objs fs).
Proof.
  revert fs. induction objs as [|o objs IH]; intros fs Hok; [constructor|].
  cbn [loop_oks]. constructor.
  - apply Hok. by left.
  - apply IH. intros obj fs' Hobj. apply Hok. by right.
Qed.

(** Served objects are all counted as successes when no destination is a
    directory. *)
Lemma loop_oks_served js self c objs fs :
  s3 self = Some c →
  (∀ obj, obj ∈ objs →
     (∃ n, head_object c (bucket_name self) (Key obj) = Ok n)
     ∧ (∃ w, s3_download_file c (bucket_name self) (Key obj)
               (destination self obj) = Ok w)) →
  (∀ obj n, obj ∈ objs → fs !! destination self obj ≠ Some (Directory n)) →
  Forall (λ b, b = true) (loop_oks js self objs fs).
Proof.
  intros Hc. revert fs.
  induction objs as [|o objs IH]; intros fs Hall Hdir; [constructor|].
  cbn [loop_oks]. constructor.
  - destruct (Hall o) as ((n & Hhead) & (w & Hget)); [by left|].
    unfold obj_ok, lands, transfer. rewrite Hc, Hhead, Hget.
    destruct (fs !! destination self o) as [[| |k]|] eqn:Hlook;
      try apply orb_true_r.
    destruct (Hdir o k); [by left | done].
  - apply IH.
    + intros obj Hobj. apply Hall. by right.
    + intros obj n Hobj. apply obj_files_not_directory.
      intros k. apply Hdir. by right.
Qed.

(** X8. Let the listed keys be plain relative paths, none below the name of
    the manifest and none below another, and let nothing local be in the
    way: the manifest path is not a directory, and no destination is a
    directory, lies below a local file or has local files below it. When
    every listed object answers the metadata call and its transfer
    succeeds, the run returns [True]: the manifest records as many
    successes as listed objects and no failure, and no error line is
    printed. *)
Theorem all_transfers_succeed js fuel now self c fs objs fs1 tr1 :
  list_bucket_contents fuel self fs = (Ret objs, fs1, tr1) →
  objs ≠ [] →
  s3 self = Some c →
  (∀ obj, obj ∈ objs →
     (∃ n, head_object c (bucket_name self) (Key obj) = Ok n)
     ∧ (∃ w, s3_download_file c (bucket_name self) (Key obj)
               (destination self obj) = Ok w)) →
  plain_listing self objs →
  no_nesting self objs →
  tidy_files self fs →
  clear_destinations self objs fs →
  (∀ obj n, obj ∈ objs → fs !! destination self obj ≠ Some (Directory n)) →
  ∃ fs' tr m,
    download_model js fuel now self fs = (Ret true, fs', tr)
    ∧ fs' !! manifest_path self = Some (Manifest m)
    ∧ total_files m = length objs
    ∧ successful_downloads m = length objs
    ∧ failed_downloads m = 0
    ∧ failures tr = 0.
Proof.
  intros Hlist Hne Hc Hall Hplain _ Htidy _ Hdir.
  destruct (download_model_run js fuel now self fs objs fs1 tr1 Hlist Hne
              (plain_listing_writable js self objs fs Hplain Htidy))
    as (tr & Hrun & Hfail & _).
  pose proof (loop_oks_served js self c objs fs Hc Hall Hdir) as Hoks.
  destruct (count_false_all_true _ Hoks) as (Hcf & Hct).
  rewrite Hcf, Hct, length_loop_oks in Hrun. rewrite Hcf in Hfail.
  eexists _, tr, _. split; [exact Hrun|].
  split; [apply lookup_insert_eq|]. done.
Qed.

Lemma clear_destinations_empty self objs :
  (∀ obj, obj ∈ objs → OsPath.canonical (destination self obj) = true) →
  clear_destinations self objs ∅.
Proof.
  intros Hcan obj Hobj. split; [by apply Hcan|].
  intros q [c Hq]. by rewrite lookup_empty in Hq.
Qed.

Lemma all_transfers_succeed_witness :
  list_bucket_contents 1 (downloader (Some weights_store)) ∅
  = (Ret [weights], ∅, [ListObjectsV2 "rd0cg4jfje" None])
  ∧ plain_listing (downloader (Some weights_store)) [weights]
  ∧ no_nesting (downloader (Some weights_store)) [weights]
  ∧ tidy_files (downloader (Some weights_store)) ∅
  ∧ clear_destinations (downloader (Some weights_store)) [weights] ∅
  ∧ ∃ fs' tr m,
      download_model json_size0 1 0 (downloader (Some weights_store)) ∅
      = (Ret true, fs', tr)
      ∧ fs' !! "/model/download_metadata.json" = Some (Manifest m)
      ∧ total_files m = 1
      ∧ successful_downloads m = 1
      ∧ failed_downloads m = 0
      ∧ failures tr = 0.
Proof.
  assert (Hclear : clear_destinations (downloader (Some weights_store))
                     [weights] ∅).
  { apply clear_destinations_empty. intros obj Hobj.
    apply list_elem_of_singleton in Hobj. by subst obj. }
  split; [reflexivity|]. split; [exact weights_plain|].
  split; [exact weights_no_nesting|]. split; [apply tidy_files_empty|].
  split; [exact Hclear|].
  refine (all_transfers_succeed json_size0 1 0
            (downloader (Some weights_store)) weights_store ∅ [weights] ∅
            [ListObjectsV2 "rd0cg4jfje" None] eq_refl _ eq_refl _
            weights_plain weights_no_nesting (tidy_files_empty _) Hclear _).
  - discriminate.
  - intros obj Hobj. apply list_elem_of_singleton in Hobj. subst obj.
    split; [by exists 7%N | by exists 7%N].
  - intros obj n _. by rewrite lookup_empty.
Defined.

(** The loop over objects that are all up to date: every one is skipped. *)
Lemma sync_loop_all_up_to_date js self objs s f fs :
  (∀ obj, obj ∈ objs → up_to_date js fs self obj = true) →
  sync_loop js self objs (s, f) fs
  = (Ret (length objs + s, f), fs,
     (λ obj, Print (Msg_already_exists (Key obj))) <$> objs).
Proof.
  revert s. induction objs as [|o objs IH]; intros s Hutd; [done|].
  cbn [sync_loop]. unfold mbind, M_bind.
  rewrite (sync_object_skip js self o s f fs) by (apply Hutd; by left).
  rewrite (IH (S s)) by (intros obj Hobj; apply Hutd; by right).
  rewrite Nat.add_succ_r. reflexivity.
Qed.

Lemma download_model_all_up_to_date js fuel now self fs objs fs1 tr1 :
  list_bucket_contents fuel self fs = (Ret objs, fs1, tr1) →
  objs ≠ [] →
  (∀ obj, obj ∈ objs → up_to_date js fs self obj = true) →
  is_directory fs (manifest_path self) = false →
  (download_model js fuel now self fs).1
  = (Ret true,
     <[manifest_path self := Manifest {|
         download_time := now;
         md_bucket_name := bucket_name self;
         md_endpoint_url := endpoint_url self;
         total_files := length objs;
         successful_downloads := length objs;
         failed_downloads := 0 |}]> fs)
  ∧ Forall (λ ev, is_download_event ev = false)
      (download_model js fuel now self fs).2.
Proof.
  intros Hlist Hne Hutd Hdir.
  destruct (list_bucket_contents_files _ _ _ _ _ _ Hlist) as (-> & Hev & _).
  unfold download_model. unfold_M. rewrite Hlist.
  destruct objs as [|o objs]; [done|].
  rewrite (sync_loop_all_up_to_date js self (o :: objs) 0 0 fs Hutd).
  rewrite Hdir, Nat.add_0_r. cbn [fst snd]. split; [reflexivity|].
  repeat (apply Forall_app; split); try (by repeat constructor).
  - by apply listing_no_download.
  - apply Forall_fmap, Forall_forall. by intros obj _.
Qed.

(** X9. Let the listed keys be plain relative paths, none below the name of
    the manifest, and let the manifest path not be a directory. When every
    listed object already has a local file of the listed size, the run asks
    for no metadata and no transfer and never enters [download_file]; it
    returns [True] and the only local change is the manifest, which counts
    every object as a success. *)
Theorem up_to_date_run_transfers_nothing js fuel now self fs objs fs1 tr1 :
  list_bucket_contents fuel self fs = (Ret objs, fs1, tr1) →
  objs ≠ [] →
  (∀ obj, obj ∈ objs →
     ∃ c, fs !! destination self obj = Some c ∧ getsize js c = Size obj) →
  plain_listing self objs →
  tidy_files self fs →
  (download_model js fuel now self fs).1
  = (Ret true,
     <[manifest_path self := Manifest {|
         download_time := now;
         md_bucket_name := bucket_name self;
         md_endpoint_url := endpoint_url self;
         total_files := length objs;
         successful_downloads := length objs;
         failed_downloads := 0 |}]> fs)
  ∧ Forall (λ ev, is_download_event ev = false)
      (download_model js fuel now self fs).2.
Proof.
  intros Hlist Hne Hlocal _ Htidy.
  apply (download_model_all_up_to_date js fuel now self fs objs fs1 tr1
           Hlist Hne).
  - intros obj Hobj. destruct (Hlocal obj Hobj) as (c & Hlook & Hsize).
    unfold up_to_date. rewrite Hlook. by apply N.eqb_eq.
  - by apply manifest_free_is_directory, tidy_files_manifest_free.
Qed.

Lemma weights_present_tidy :
  tidy_files (downloader (Some weights_store))
    {["/model/weights.bin" := Blob 7%N]}.
Proof.
  split.
  - intros n Hn. apply lookup_singleton_Some in Hn as [Hn _].
    discriminate Hn.
  - intros p [c Hp]. apply lookup_singleton_Some in Hp as [<- _].
    by vm_compute.
Qed.

Lemma up_to_date_run_transfers_nothing_witness :
  list_bucket_contents 1 (downloader (Some weights_store))
    {["/model/weights.bin" := Blob 7%N]}
  = (Ret [weights], {["/model/weights.bin" := Blob 7%N]},
     [ListObjectsV2 "rd0cg4jfje" None])
  ∧ plain_listing (downloader (Some weights_store)) [weights]
  ∧ tidy_files (downloader (Some weights_store))
      {["/model/weights.bin" := Blob 7%N]}
  ∧ (download_model json_size0 1 0 (downloader (Some weights_store))
       {["/model/weights.bin" := Blob 7%N]}).1.1 = Ret true
  ∧ Forall (λ ev, is_download_event ev = false)
      (download_model json_size0 1 0 (downloader (Some weights_store))
         {["/model/weights.bin" := Blob 7%N]}).2.
Proof.
  split; [reflexivity|].
  split; [exact weights_plain|]. split; [exact weights_present_tidy|].
  assert (Hlocal : ∀ obj, obj ∈ [weights] →
            ∃ c, ({["/model/weights.bin" := Blob 7%N]} : gmap string content)
                   !! destination (downloader (Some weights_store)) obj
                 = Some c
                 ∧ getsize json_size0 c = Size obj).
  { intros obj Hobj. apply list_elem_of_singleton in Hobj. subst obj.
    exists (Blob 7%N). split; reflexivity. }
  assert (Hne : [weights] ≠ []) by discriminate.
  destruct (up_to_date_run_transfers_nothing json_size0 1 0
              (downloader (Some weights_store))
              {["/model/weights.bin" := Blob 7%N]} [weights]
              {["/model/weights.bin" := Blob 7%N]}
              [ListObjectsV2 "rd0cg4jfje" None] eq_refl Hne Hlocal
              weights_plain weights_present_tidy)
    as (Hrun & Hev).
  split; [by rewrite Hrun | exact Hev].
Defined.

(** X10. Let the listed keys be plain relative paths, none below the name
    of the manifest, and the local paths canonical, the manifest path not a
    directory. A run changes nothing but the destinations of the listed
    objects, the directories above them and the manifest: every other
    canonical path, for instance the file of an object that is no longer in
    the bucket, holds after the run what it held before. The sync never
    deletes. *)
Theorem other_paths_untouched js fuel now self fs objs fs1 tr1 p :
  list_bucket_contents fuel self fs = (Ret objs, fs1, tr1) →
  p ≠ manifest_path self →
  p ∉ destination self <$> objs →
  plain_listing self objs →
  tidy_files self fs →
  OsPath.canonical p = true →
  OsPath.below p (manifest_path self) = false →
  (∀ obj, obj ∈ objs → OsPath.below p (destination self obj) = false) →
  (download_model js fuel now self fs).1.2 !! p = fs !! p.
Proof.
  intros Hlist Hmp Hp Hplain Htidy _ _ _.
  destruct (decide (objs = [])) as [-> | Hne].
  - by rewrite (download_model_empty js _ now _ _ _ _ Hlist).
  - destruct (download_model_run js fuel now self fs objs fs1 tr1 Hlist Hne
                (plain_listing_writable js self objs fs Hplain Htidy))
      as (tr & Hrun & _).
    rewrite Hrun. cbn [fst snd].
    rewrite lookup_insert_ne by done. by apply loop_files_lookup_notin.
Qed.

Lemma other_paths_untouched_witness :
  list_bucket_contents 1 (downloader (Some weights_store))
    {["/model/old.bin" := Blob 3%N]}
  = (Ret [weights], {["/model/old.bin" := Blob 3%N]},
     [ListObjectsV2 "rd0cg4jfje" None])
  ∧ plain_listing (downloader (Some weights_store)) [weights]
  ∧ tidy_files (downloader (Some weights_store))
      {["/model/old.bin" := Blob 3%N]}
  ∧ OsPath.canonical "/model/old.bin" = true
  ∧ (download_model json_size0 1 0 (downloader (Some weights_store))
       {["/model/old.bin" := Blob 3%N]}).1.2 !! "/model/old.bin"
    = Some (Blob 3%N).
Proof.
  assert (Htidy : tidy_files (downloader (Some weights_store))
                    {["/model/old.bin" := Blob 3%N]})
    by (by apply tidy_files_singleton).
  split; [reflexivity|]. split; [exact weights_plain|].
  split; [exact Htidy|]. split; [reflexivity|].
  refine (other_paths_untouched json_size0 1 0
            (downloader (Some weights_store))
            {["/model/old.bin" := Blob 3%N]} [weights]
            {["/model/old.bin" := Blob 3%N]}
            [ListObjectsV2 "rd0cg4jfje" None] "/model/old.bin" eq_refl _ _
            weights_plain Htidy eq_refl eq_refl _).
  - discriminate.
  - intros Hin. apply list_elem_of_singleton in Hin. discriminate Hin.
  - intros obj Hobj. apply list_elem_of_singleton in Hobj. by subst obj.
Defined.

Lemma obj_files_is_Some js fs self o p :
  is_Some (fs !! p) → is_Some (obj_files js fs self o !! p).
Proof.
  intros Hp. unfold obj_files.
  destruct (up_to_date js fs self o); [done|].
  destruct (lands fs self (Key o) (destination self o)); [|done].
  rewrite lookup_insert. by case_decide.
Qed.

Lemma loop_files_is_Some js self objs fs p :
  is_Some (fs !! p) → is_Some (loop_files js self objs fs !! p).
Proof.
  revert fs. induction objs as [|o objs IH]; intros fs Hp; [done|].
  cbn [loop_files]. by apply IH, obj_files_is_Some.
Qed.

(** The files a run leaves, whatever the listing comes to. *)
Lemma download_model_files js fuel now self fs :
  (download_model js fuel now self fs).1.2 = fs
  ∨ (∃ objs,
      (download_model js fuel now self fs).1.2 = loop_files js self objs fs)
  ∨ ∃ objs m,
      (download_model js fuel now self fs).1.2
      = <[manifest_path self := Manifest m]> (loop_files js self objs fs).
Proof.
  destruct (list_bucket_contents_run fuel self) as (r & tr & Hrun & _).
  destruct r as [objs|e|].
  - destruct (decide (objs = [])) as [-> | Hne].
    + left. by rewrite (download_model_empty js _ now _ _ _ _ (Hrun fs)).
    + right.
      destruct (is_directory (loop_files js self objs fs)
                  (manifest_path self)) eqn:Hdir.
      * left.
        destruct (download_model_raises js fuel now self fs objs fs tr
                    (Hrun fs) Hne Hdir) as (tr' & Hrun' & _).
        rewrite Hrun'. by eexists.
      * right.
        destruct (download_model_run js fuel now self fs objs fs tr (Hrun fs)
                    Hne Hdir) as (tr' & Hrun' & _).
        rewrite Hrun'. by eexists _, _.
  - left. unfold download_model. unfold_M. by rewrite Hrun.
  - left. unfold download_model. unfold_M. by rewrite Hrun.
Qed.

(** X11. No run removes a local file: a path that exists before
    [download_model] exists after it, whether the run returns, raises or
    never gets through the listing. *)
Theorem no_file_removed js fuel now self fs p :
  is_Some (fs !! p) →
  is_Some ((download_model js fuel now self fs).1.2 !! p).
Proof.
  intros Hp.
  destruct (download_model_files js fuel now self fs)
    as [-> | [(objs & ->) | (objs & m & ->)]];
    [done | by apply loop_files_is_Some |].
  rewrite lookup_insert. case_decide; [done|].
  by apply loop_files_is_Some.
Qed.

Lemma no_file_removed_witness :
  is_Some (({["/model/a" := Blob 9%N]} : gmap string content) !! "/model/a")
  ∧ is_Some ((download_model json_size0 1 0
                (downloader (Some colliding_store))
                {["/model/a" := Blob 9%N]}).1.2 !! "/model/a").
Proof.
  assert (H : is_Some (({["/model/a" := Blob 9%N]} : gmap string content)
                         !! "/model/a")) by (by eexists).
  split; [exact H|].
  exact (no_file_removed json_size0 1 0 (downloader (Some colliding_store))
           {["/model/a" := Blob 9%N]} "/model/a" H).
Defined.



Lemma step_keys_app tr1 tr2 :
  step_keys (tr1 ++ tr2) = step_keys tr1 ++ step_keys tr2.
Proof. apply omap_app. Qed.

Lemma no_steps_no_keys tr : steps tr = 0 → step_keys tr = [].
Proof.
  induction tr as [|ev tr IH]; [done|].
  change (ev :: tr) with ([ev] ++ tr). rewrite steps_app, step_keys_app.
  intros Hsteps.
  assert (Hev : steps [ev] = 0) by lia.
  rewrite IH by lia. rewrite app_nil_r.
  by destruct ev as [[]| | | | |].
Qed.

Lemma sync_object_step_keys js self obj s f fs :
  step_keys (sync_object js self obj (s, f) fs).2 = [Key obj].
Proof.
  destruct (up_to_date js fs self obj) eqn:Hutd.
  - by rewrite (sync_object_skip _ _ _ _ _ _ Hutd).
  - destruct (download_file_run self (Key obj) (destination self obj) fs)
      as (tr & Hrun & _ & Hsteps).
    rewrite (sync_object_download _ _ _ _ _ _ _ _ _ Hutd Hrun). cbn [snd].
    change (step_keys _) with (Key obj :: step_keys tr).
    by rewrite (no_steps_no_keys _ Hsteps).
Qed.

Lemma sync_loop_step_keys js self objs s f fs :
  step_keys (sync_loop js self objs (s, f) fs).2 = Key <$> objs.
Proof.
  revert s f fs. induction objs as [|o objs IH]; intros s f fs; [done|].
  pose proof (sync_object_step_keys js self o s f fs) as Hkeys.
  destruct (sync_object_run js self o s f fs) as (tr1 & Hrun1 & _).
  rewrite Hrun1 in Hkeys. cbn [snd] in Hkeys.
  cbn [sync_loop]. unfold mbind, M_bind. rewrite Hrun1.
  destruct (obj_ok js fs self o).
  - specialize (IH (S s) f (obj_files js fs self o)).
    destruct (sync_loop js self objs (S s, f) (obj_files js fs self o))
      as [[r fs2] tr2].
    cbn [snd] in *. by rewrite step_keys_app, Hkeys, IH.
  - specialize (IH s (S f) (obj_files js fs self o)).
    destruct (sync_loop js self objs (s, S f) (obj_files js fs self o))
      as [[r fs2] tr2].
    cbn [snd] in *. by rewrite step_keys_app, Hkeys, IH.
Qed.

(** X13. The objects are handled one after the other in the order of the
    listing, each exactly once: the keys of the steps of the run (skip line
    or entry into [download_file]) are, in order, the keys the listing
    returned. *)
Theorem objects_handled_in_listing_order js fuel now self fs objs fs1 tr1 :
  list_bucket_contents fuel self fs = (Ret objs, fs1, tr1) →
  step_keys (download_model js fuel now self fs).2 = Key <$> objs.
Proof.
  intros Hlist.
  destruct (list_bucket_contents_files _ _ _ _ _ _ Hlist) as (-> & Hev & _).
  pose proof (no_steps_no_keys _ (listing_steps _ Hev)) as Hnone.
  destruct (decide (objs = [])) as [-> | Hne].
  - rewrite (download_model_empty js _ now _ _ _ _ Hlist). cbn [snd].
    by rewrite !step_keys_app, Hnone.
  - pose proof (sync_loop_step_keys js self objs 0 0 fs) as Hkeys.
    destruct (sync_loop_run js self objs 0 0 fs) as (tr & Hloop & _).
    rewrite Hloop in Hkeys. cbn [snd] in Hkeys.
    unfold download_model. unfold_M. rewrite Hlist.
    destruct objs as [|o objs]; [done|].
    rewrite Hloop.
    destruct (is_directory _ _); cbn [snd];
      rewrite !step_keys_app, Hnone, Hkeys; simpl; by rewrite ?app_nil_r.
Qed.

Lemma objects_handled_in_listing_order_witness :
  list_bucket_contents 1 (downloader (Some colliding_store)) ∅
  = (Ret colliding, ∅, [ListObjectsV2 "rd0cg4jfje" None])
  ∧ step_keys (download_model json_size0 1 0
                 (downloader (Some colliding_store)) ∅).2
    = ["a"; "/model/a"].
Proof.
  split; [reflexivity|].
  exact (objects_handled_in_listing_order json_size0 1 0
           (downloader (Some colliding_store)) ∅ colliding ∅
           [ListObjectsV2 "rd0cg4jfje" None] eq_refl).
Defined.

(** After a run whose transfers all succeeded and wrote the listed sizes,
    every listed object is up to date. *)
Lemma up_to_date_after_run js self c objs fs m obj :
  s3 self = Some c →
  NoDup (manifest_path self :: (destination self <$> objs)) →
  (∀ o, o ∈ objs →
     (∃ n, head_object c (bucket_name self) (Key o) = Ok n)
     ∧ s3_download_file c (bucket_name self) (Key o) (destination self o)
       = Ok (Size o)) →
  (∀ o n, o ∈ objs → fs !! destination self o ≠ Some (Directory n)) →
  obj ∈ objs →
  up_to_date js
    (<[manifest_path self := Manifest m]> (loop_files js self objs fs))
    self obj = true.
Proof.
  intros Hc [Hmp Hnd]%NoDup_cons Hall Hdir Hobj.
  destruct (Hall obj Hobj) as ((n & Hhead) & Hget).
  assert (Hlook :
    <[manifest_path self := Manifest m]> (loop_files js self objs fs)
      !! destination self obj
    = obj_files js fs self obj !! destination self obj).
  { rewrite lookup_insert_ne.
    - by apply loop_files_lookup_in.
    - intros Heq. apply Hmp. rewrite Heq. by apply list_elem_of_fmap_2. }
  unfold up_to_date at 1. rewrite Hlook. unfold obj_files.
  destruct (up_to_date js fs self obj) eqn:Hutd; [exact Hutd|].
  assert (Hlands : lands fs self (Key obj) (destination self obj)
                   = Some (Size obj)).
  { unfold lands, transfer. rewrite Hc, Hhead, Hget.
    destruct (fs !! destination self obj) as [[| |k]|] eqn:Hfs; try done.
    by destruct (Hdir obj k Hobj). }
  rewrite Hlands, lookup_insert_eq. apply N.eqb_refl.
Qed.

(** X20. Let the listed keys be plain relative paths with pairwise distinct
    destinations, none of them the manifest path or below it and none below
    another, and let nothing local be in the way: the manifest path is not a
    directory, and no destination is a directory, lies below a local file or
    has local files below it. After a run in which every listed object was
    fetched or found up to date, the transfers writing as many bytes as the
    listing announces, a second run transfers nothing: it asks for no
    metadata and no transfer, returns [True], and changes only the
    manifest. *)
Theorem second_run_transfers_nothing js fuel t1 t2 self c fs objs fs0 tr0 :
  list_bucket_contents fuel self fs = (Ret objs, fs0, tr0) →
  objs ≠ [] →
  s3 self = Some c →
  NoDup (manifest_path self :: (destination self <$> objs)) →
  (∀ o, o ∈ objs →
     (∃ n, head_object c (bucket_name self) (Key o) = Ok n)
     ∧ s3_download_file c (bucket_name self) (Key o) (destination self o)
       = Ok (Size o)) →
  plain_listing self objs →
  no_nesting self objs →
  tidy_files self fs →
  clear_destinations self objs fs →
  (∀ o n, o ∈ objs → fs !! destination self o ≠ Some (Directory n)) →
  (download_model js fuel t2 self
     (download_model js fuel t1 self fs).1.2).1.1 = Ret true
  ∧ Forall (λ ev, is_download_event ev = false)
      (download_model js fuel t2 self
         (download_model js fuel t1 self fs).1.2).2
  ∧ ∀ p, p ≠ manifest_path self →
      (download_model js fuel t2 self
         (download_model js fuel t1 self fs).1.2).1.2 !! p
      = (download_model js fuel t1 self fs).1.2 !! p.
Proof.
  intros Hlist Hne Hc Hnd Hall Hplain _ Htidy _ Hdir.
  destruct (list_bucket_contents_files _ _ _ _ _ _ Hlist) as (-> & _ & Hany).
  destruct (download_model_run js fuel t1 self fs objs fs tr0 Hlist Hne
              (plain_listing_writable js self objs fs Hplain Htidy))
    as (tr1 & Hrun1 & _).
  rewrite Hrun1. cbn [fst snd].
  match goal with
  | |- context [download_model js fuel t2 self ?fs1] =>
      destruct (download_model_all_up_to_date js fuel t2 self fs1 objs fs1
                  tr0 (Hany fs1) Hne) as (Hrun2 & Hev2)
  end.
  { intros obj Hobj. by eapply up_to_date_after_run. }
  { by apply manifest_free_is_directory, manifest_free_after_run. }
  split; [by rewrite Hrun2|]. split; [exact Hev2|].
  intros p Hp. rewrite Hrun2. cbn [snd]. by rewrite lookup_insert_ne.
Qed.

Lemma second_run_transfers_nothing_witness :
  list_bucket_contents 1 (downloader (Some weights_store)) ∅
  = (Ret [weights], ∅, [ListObjectsV2 "rd0cg4jfje" None])
  ∧ plain_listing (downloader (Some weights_store)) [weights]
  ∧ no_nesting (downloader (Some weights_store)) [weights]
  ∧ tidy_files (downloader (Some weights_store)) ∅
  ∧ clear_destinations (downloader (Some weights_store)) [weights] ∅
  ∧ (download_model json_size0 1 200 (downloader (Some weights_store))
       (download_model json_size0 1 100 (downloader (Some weights_store))
          ∅).1.2).1.1 = Ret true
  ∧ Forall (λ ev, is_download_event ev = false)
      (download_model json_size0 1 200 (downloader (Some weights_store))
         (download_model json_size0 1 100 (downloader (Some weights_store))
            ∅).1.2).2.
Proof.
  assert (Hclear : clear_destinations (downloader (Some weights_store))
                     [weights] ∅).
  { apply clear_destinations_empty. intros obj Hobj.
    apply list_elem_of_singleton in Hobj. by subst obj. }
  assert (Hnd : NoDup (manifest_path (downloader (Some weights_store))
           :: (destination (downloader (Some weights_store)) <$> [weights]))).
  { apply NoDup_cons. split.
    - intros Hin. apply list_elem_of_singleton in Hin. discriminate Hin.
    - apply NoDup_singleton. }
  assert (Hne : [weights] ≠ []) by discriminate.
  assert (Hall : ∀ o, o ∈ [weights] →
     (∃ n, head_object weights_store
             (bucket_name (downloader (Some weights_store))) (Key o) = Ok n)
     ∧ s3_download_file weights_store
         (bucket_name (downloader (Some weights_store))) (Key o)
         (destination (downloader (Some weights_store)) o)
       = Ok (Size o)).
  { intros o Ho. apply list_elem_of_singleton in Ho. subst o.
    split; [by exists 7%N | reflexivity]. }
  assert (Hdir : ∀ o n, o ∈ [weights] →
     (∅ : gmap string content)
       !! destination (downloader (Some weights_store)) o
     ≠ Some (Directory n)).
  { intros o n _. by rewrite lookup_empty. }
  split; [reflexivity|]. split; [exact weights_plain|].
  split; [exact weights_no_nesting|]. split; [apply tidy_files_empty|].
  split; [exact Hclear|].
  destruct (second_run_transfers_nothing json_size0 1 100 200
              (downloader (Some weights_store)) weights_store ∅ [weights] ∅
              [ListObjectsV2 "rd0cg4jfje" None] eq_refl Hne eq_refl Hnd Hall
              weights_plain weights_no_nesting (tidy_files_empty _) Hclear
              Hdir)
    as (Hret & Hev & _).
  split; [exact Hret | exact Hev].
Defined.

(** ** Further properties: building the downloader *)

(** X14. With both credentials set to non-empty values and a factory that
    builds the client, [download_model_from_s3] is [download_model] on the
    downloader around that client, with the arguments as given and the
    local root [/model]: construction prints nothing and asks the store
    nothing. *)
Theorem download_with_credentials
    js env fuel now bucket endpoint rgn access secret c fs :
  getenv env "AWS_ACCESS_KEY_ID" = Some access →
  access ≠ EmptyString →
  getenv env "AWS_SECRET_ACCESS_KEY" = Some secret →
  secret ≠ EmptyString →
  boto3_client env endpoint rgn access secret = Ok c →
  download_model_from_s3 js env fuel now bucket endpoint rgn fs
  = download_model js fuel now (built bucket endpoint rgn (Some c)) fs.
Proof.
  intros Ha Hane Hs Hsne Hc.
  assert (Hat : String.eqb access EmptyString = false)
    by (by destruct (String.eqb_spec access EmptyString)).
  assert (Hst : String.eqb secret EmptyString = false)
    by (by destruct (String.eqb_spec secret EmptyString)).
  unfold download_model_from_s3, __init__, _create_s3_client.
  unfold_M. rewrite Ha, Hs. simpl. rewrite Hat, Hst. simpl. rewrite Hc.
  fold (built bucket endpoint rgn (Some c)).
  by destruct (download_model js fuel now (built bucket endpoint rgn (Some c))
                 fs) as [[r fs2] tr2].
Qed.

Lemma download_with_credentials_witness :
  getenv (with_credentials weights_store) "AWS_ACCESS_KEY_ID" = Some "AKIA"
  ∧ getenv (with_credentials weights_store) "AWS_SECRET_ACCESS_KEY"
    = Some "secret"
  ∧ download_model_from_s3 json_size0 (with_credentials weights_store) 1 0
      "rd0cg4jfje" "https://s3api-eu-cz-1.runpod.io" "eu-cz-1" ∅
    = download_model json_size0 1 0 (downloader (Some weights_store)) ∅.
Proof.
  split; [reflexivity|]. split; [reflexivity|].
  refine (download_with_credentials json_size0
            (with_credentials weights_store) 1 0 "rd0cg4jfje"
            "https://s3api-eu-cz-1.runpod.io" "eu-cz-1" "AKIA" "secret"
            weights_store ∅ eq_refl _ eq_refl _ eq_refl); discriminate.
Defined.

(** X15. A credential variable that is set to the empty string counts as
    missing: the factory is not called, the warning is printed and the
    downloader is built without a client. *)
Theorem empty_credential_counts_as_missing env bucket endpoint rgn fs :
  getenv env "AWS_ACCESS_KEY_ID" = Some EmptyString
  ∨ getenv env "AWS_SECRET_ACCESS_KEY" = Some EmptyString →
  __init__ env bucket endpoint rgn fs
  = (Ret (built bucket endpoint rgn None), fs,
     [Print Msg_credentials_not_found; Print Msg_credentials_hint]).
Proof.
  intros Hcred.
  assert (Hfalsy :
    negb (truthy (getenv env "AWS_ACCESS_KEY_ID"))
    || negb (truthy (getenv env "AWS_SECRET_ACCESS_KEY")) = true).
  { destruct Hcred as [-> | ->]; [done|]. apply orb_true_r. }
  unfold __init__, _create_s3_client. unfold_M. by rewrite Hfalsy.
Qed.

Lemma empty_credential_counts_as_missing_witness :
  getenv (empty_access_key weights_store) "AWS_ACCESS_KEY_ID"
  = Some EmptyString
  ∧ __init__ (empty_access_key weights_store) "rd0cg4jfje"
      "https://s3api-eu-cz-1.runpod.io" "eu-cz-1" ∅
    = (Ret (downloader None), ∅,
       [Print Msg_credentials_not_found; Print Msg_credentials_hint]).
Proof.
  split; [reflexivity|].
  exact (empty_credential_counts_as_missing (empty_access_key weights_store)
           "rd0cg4jfje" "https://s3api-eu-cz-1.runpod.io" "eu-cz-1" ∅
           (or_introl eq_refl)).
Defined.

(** X16. When the credentials are set and the client factory raises,
    [_create_s3_client] prints the error and raises it again: the
    constructor fails with that exception, and [download_model_from_s3]
    ends there, before any listing and with the local files untouched. *)
Theorem factory_error_reraised
    js env fuel now bucket endpoint rgn access secret e fs :
  getenv env "AWS_ACCESS_KEY_ID" = Some access →
  access ≠ EmptyString →
  getenv env "AWS_SECRET_ACCESS_KEY" = Some secret →
  secret ≠ EmptyString →
  boto3_client env endpoint rgn access secret = Err e →
  __init__ env bucket endpoint rgn fs
  = (Raise e, fs, [Print (Msg_error_creating_client e)])
  ∧ download_model_from_s3 js env fuel now bucket endpoint rgn fs
    = (Raise e, fs, [Print (Msg_error_creating_client e)]).
Proof.
  intros Ha Hane Hs Hsne Hc.
  assert (Hat : String.eqb access EmptyString = false)
    by (by destruct (String.eqb_spec access EmptyString)).
  assert (Hst : String.eqb secret EmptyString = false)
    by (by destruct (String.eqb_spec secret EmptyString)).
  unfold download_model_from_s3, __init__, _create_s3_client.
  unfold_M. rewrite Ha, Hs. simpl. rewrite Hat, Hst. simpl. by rewrite Hc.
Qed.

Lemma factory_error_reraised_witness :
  getenv failing_factory "AWS_ACCESS_KEY_ID" = Some "AKIA"
  ∧ getenv failing_factory "AWS_SECRET_ACCESS_KEY" = Some "secret"
  ∧ download_model_from_s3 json_size0 failing_factory 1 0 "rd0cg4jfje"
      "https://s3api-eu-cz-1.runpod.io" "eu-cz-1" ∅
    = (Raise (OtherException "Invalid endpoint"), ∅,
       [Print (Msg_error_creating_client
                 (OtherException "Invalid endpoint"))]).
Proof.
  split; [reflexivity|]. split; [reflexivity|].
  refine (proj2 (factory_error_reraised json_size0 failing_factory 1 0
            "rd0cg4jfje" "https://s3api-eu-cz-1.runpod.io" "eu-cz-1"
            "AKIA" "secret" (OtherException "Invalid endpoint") ∅
            eq_refl _ eq_refl _ eq_refl)); discriminate.
Defined.

(** ** Further properties: the worker *)

(** X17. The answer of the handler depends on the job only through its
    ["input"] entry: two jobs that agree there get the same answer, whatever
    else they carry and whatever the environment holds. *)
Theorem handler_reads_input_only getenv getenv' (job job' : gmap string value) :
  job !! "input" = job' !! "input" →
  Main.handler getenv job = Main.handler getenv' job'.
Proof.
  intros Hin. unfold Main.handler, Main.getitem. rewrite <- Hin.
  destruct (job !! "input") as [v|]; [|reflexivity].
  cbn. by rewrite !CONFIG_MODEL_PATH.
Qed.

Lemma handler_reads_input_only_witness :
  ({["input" := PyStr "x"]} : gmap string value) !! "input"
  = (<["id" := PyStr "job-1"]> {["input" := PyStr "x"]}
       : gmap string value) !! "input"
  ∧ Main.handler (λ _, None) {["input" := PyStr "x"]}
    = Main.handler credentials
        (<["id" := PyStr "job-1"]> {["input" := PyStr "x"]}).
Proof.
  split; [reflexivity|].
  exact (handler_reads_input_only (λ _, None) credentials
           {["input" := PyStr "x"]}
           (<["id" := PyStr "job-1"]> {["input" := PyStr "x"]}) eq_refl).
Defined.

(** X18. The bootstrap never fails, with or without credentials, and the
    model path in its descriptor is the one the handler reports as
    [model_used]. *)
Theorem bootstrap_and_handler_agree getenv (job : gmap string value) v :
  job !! "input" = Some v →
  ∃ path resp,
    (Main.initialize_worker getenv).2
    = Ret (<["status" := "ready"]> (<["model_path" := path]> ∅))
    ∧ Main.handler getenv job = Ret resp
    ∧ resp !! "model_used" = Some path.
Proof.
  intros Hin. eexists "/model", _.
  split; [apply initialize_worker_ready|].
  unfold Main.handler, Main.getitem. rewrite Hin. cbn.
  rewrite CONFIG_MODEL_PATH. split; [reflexivity|]. cbn.
  by simplify_map_eq.
Qed.

Lemma bootstrap_and_handler_agree_witness :
  ({["input" := PyStr "x"]} : gmap string value) !! "input" = Some (PyStr "x")
  ∧ ∃ path resp,
      (Main.initialize_worker (λ _, None)).2
      = Ret (<["status" := "ready"]> (<["model_path" := path]> ∅))
      ∧ Main.handler (λ _, None) {["input" := PyStr "x"]} = Ret resp
      ∧ resp !! "model_used" = Some path.
Proof.
  split; [reflexivity|].
  exact (bootstrap_and_handler_agree (λ _, None) {["input" := PyStr "x"]}
           (PyStr "x") eq_refl).
Defined.

(** ** Further properties: relative keys *)

Lemma append_inj_r s t1 t2 : s +:+ t1 = s +:+ t2 → t1 = t2.
Proof. induction s as [|a s IH]; simpl; [done|]. intros [= H]. auto. Qed.

Lemma plain_key_relative key :
  OsPath.plain_key key = true → OsPath.startswith OsPath.sep key = false.
Proof.
  intros Hplain. destruct key as [|c rest]; [done|].
  unfold OsPath.startswith, OsPath.sep. cbn [String.prefix].
  destruct (Ascii.ascii_dec "/"%char c) as [<- | Hc]; [|done].
  unfold OsPath.plain_key in Hplain. simpl in Hplain. discriminate Hplain.
Qed.

(** Below [/model] a plain key is joined with one separator. *)
Lemma plain_key_destination self obj :
  model_path self = "/model" →
  OsPath.plain_key (Key obj) = true →
  destination self obj = "/model/" +:+ Key obj.
Proof.
  intros Hroot Hplain. unfold destination, OsPath.join.
  by rewrite (plain_key_relative _ Hplain), Hroot.
Qed.

(** Distinct plain keys, none of them the name of the manifest, have
    distinct destinations, none of them the manifest path. *)
Lemma plain_keys_distinct_destinations self objs :
  plain_listing self objs →
  NoDup (Key <$> objs) →
  (∀ obj, obj ∈ objs → Key obj ≠ "download_metadata.json") →
  NoDup (manifest_path self :: (destination self <$> objs)).
Proof.
  intros [Hroot Hkeys] Hnd Hname.
  assert (Hdest : ∀ obj, obj ∈ objs →
            destination self obj = "/model/" +:+ Key obj).
  { intros obj Hobj. apply plain_key_destination; [done|].
    by apply Hkeys. }
  assert (Hmp : manifest_path self = "/model/" +:+ "download_metadata.json")
    by (unfold manifest_path; by rewrite Hroot).
  apply NoDup_cons. split.
  - intros (obj & Heq & Hobj)%list_elem_of_fmap_1.
    rewrite Hmp, (Hdest obj Hobj) in Heq.
    apply append_inj_r in Heq. by destruct (Hname obj Hobj).
  - apply NoDup_fmap_2_strong.
    + intros o1 o2 Ho1 Ho2 Heq.
      rewrite (Hdest o1 Ho1), (Hdest o2 Ho2) in Heq.
      apply append_inj_r in Heq.
      revert Hnd Ho1 Ho2 Heq. clear. induction objs as [|o objs IH].
      * intros _ Ho1. by apply elem_of_nil in Ho1.
      * rewrite fmap_cons. intros [Hfresh Hnd]%NoDup_cons.
        intros [-> | Ho1]%elem_of_cons [-> | Ho2]%elem_of_cons Heq.
        -- done.
        -- exfalso. apply Hfresh. rewrite Heq. by apply list_elem_of_fmap_2.
        -- exfalso. apply Hfresh. rewrite <- Heq.
           by apply list_elem_of_fmap_2.
        -- by apply IH.
    + by apply NoDup_fmap_1 in Hnd.
Qed.

Lemma two_runs_agree js fuel t1 t2 self fs objs fs0 tr0 :
  list_bucket_contents fuel self fs = (Ret objs, fs0, tr0) →
  NoDup (manifest_path self :: (destination self <$> objs)) →
  plain_listing self objs →
  tidy_files self fs →
  manifests_agree
    ((download_model js fuel t1 self fs).1.2 !! manifest_path self)
    ((download_model js fuel t2 self
        (download_model js fuel t1 self fs).1.2).1.2 !! manifest_path self).
Proof.
  intros Hlist Hnd Hplain Htidy.
  destruct (list_bucket_contents_files _ _ _ _ _ _ Hlist) as (-> & _ & Hany).
  destruct (decide (objs = [])) as [-> | Hne].
  - rewrite (download_model_empty js _ t1 _ _ _ _ Hlist). cbn [fst snd].
    rewrite (download_model_empty js _ t2 _ _ _ _ Hlist). cbn [fst snd].
    apply manifests_agree_refl.
  - destruct (download_model_run js fuel t1 self fs objs fs tr0 Hlist Hne
                (plain_listing_writable js self objs fs Hplain Htidy))
      as (tr1 & Hrun1 & _).
    rewrite Hrun1. cbn [fst snd].
    match goal with
    | |- context [download_model js fuel t2 self ?fs1] =>
        destruct (download_model_run js fuel t2 self fs1 objs fs1 tr0
                    (Hany fs1) Hne) as (tr2 & Hrun2 & _);
          [by apply manifest_free_is_directory, manifest_free_loop;
             [apply manifest_free_after_run | apply Hplain] |]
    end.
    rewrite Hrun2. cbn [fst snd].
    rewrite (loop_oks_second_run _ _ _ _ _ Hnd), !lookup_insert_eq.
    by repeat split.
Qed.

(** X21. When the listing returns pairwise distinct keys, all plain
    relative paths (no empty, [.] or [..] segment), none named
    [download_metadata.json] or below that name and none below another, and
    the manifest path is not a directory, two runs in succession of a
    downloader rooted at [/model], against a store that answers the same
    way both times, leave manifests that agree in every field but
    [download_time]. *)
Theorem sync_twice_distinct_relative_keys
    js fuel t1 t2 self fs objs fs0 tr0 :
  list_bucket_contents fuel self fs = (Ret objs, fs0, tr0) →
  NoDup (Key <$> objs) →
  (∀ obj, obj ∈ objs → Key obj ≠ "download_metadata.json") →
  plain_listing self objs →
  no_nesting self objs →
  tidy_files self fs →
  manifests_agree
    ((download_model js fuel t1 self fs).1.2 !! manifest_path self)
    ((download_model js fuel t2 self
        (download_model js fuel t1 self fs).1.2).1.2 !! manifest_path self).
Proof.
  intros Hlist Hnd Hname Hplain _ Htidy.
  apply (two_runs_agree js fuel t1 t2 self fs objs fs0 tr0 Hlist);
    [|done|done].
  by apply plain_keys_distinct_destinations.
Qed.

Lemma sync_twice_distinct_relative_keys_witness :
  list_bucket_contents 1 (downloader (Some two_files_store)) ∅
  = (Ret two_files, ∅, [ListObjectsV2 "rd0cg4jfje" None])
  ∧ NoDup (Key <$> two_files)
  ∧ plain_listing (downloader (Some two_files_store)) two_files
  ∧ no_nesting (downloader (Some two_files_store)) two_files
  ∧ tidy_files (downloader (Some two_files_store)) ∅
  ∧ manifests_agree
      ((download_model json_size0 1 100 (downloader (Some two_files_store))
          ∅).1.2 !! "/model/download_metadata.json")
      ((download_model json_size0 1 200 (downloader (Some two_files_store))
          (download_model json_size0 1 100
             (downloader (Some two_files_store)) ∅).1.2).1.2
         !! "/model/download_metadata.json").
Proof.
  assert (Hnd : NoDup (Key <$> two_files)).
  { apply NoDup_cons. split; [|apply NoDup_singleton].
    intros Hin. apply list_elem_of_singleton in Hin. discriminate Hin. }
  pose proof two_files_no_nesting as Hnest.
  split; [reflexivity|]. split; [exact Hnd|].
  split; [exact two_files_plain|]. split; [exact Hnest|].
  split; [apply tidy_files_empty|].
  refine (sync_twice_distinct_relative_keys json_size0 1 100 200
            (downloader (Some two_files_store)) ∅ two_files ∅
            [ListObjectsV2 "rd0cg4jfje" None] eq_refl Hnd _ two_files_plain
            Hnest (tidy_files_empty _)).
  intros obj Hobj.
  repeat (apply elem_of_cons in Hobj as [-> | Hobj]; [discriminate|]).
  by apply elem_of_nil in Hobj.
Defined.

(** ** Further properties: errors and requests of a run *)

(** X22. An exception that leaves the listing leaves [download_model] too:
    the run raises it after the listing, with no object handled, no
    manifest written and the local files as they were. *)
Theorem listing_exception_ends_run js fuel now self fs e fs1 tr1 :
  list_bucket_contents fuel self fs = (Raise e, fs1, tr1) →
  download_model js fuel now self fs
  = (Raise e, fs,
     [Print (Msg_starting (bucket_name self));
      Print (Msg_saved_to (model_path self)); Makedirs (model_path self);
      Print Msg_listing] ++ tr1)
  ∧ steps (download_model js fuel now self fs).2 = 0.
Proof.
  intros Hlist.
  destruct (list_bucket_contents_files _ _ _ _ _ _ Hlist) as (-> & Hev & _).
  assert (Hrun : download_model js fuel now self fs
    = (Raise e, fs,
       [Print (Msg_starting (bucket_name self));
        Print (Msg_saved_to (model_path self)); Makedirs (model_path self);
        Print Msg_listing] ++ tr1)).
  { unfold download_model. unfold_M. by rewrite Hlist. }
  split; [exact Hrun|]. rewrite Hrun. cbn [snd].
  by rewrite steps_app, (listing_steps _ Hev).
Qed.

Lemma listing_exception_ends_run_witness :
  list_bucket_contents 1 (downloader (Some unreachable)) ∅
  = (Raise (BotoCoreError "EndpointConnectionError"), ∅,
     [ListObjectsV2 "rd0cg4jfje" None])
  ∧ (download_model json_size0 1 0 (downloader (Some unreachable)) ∅).1
    = (Raise (BotoCoreError "EndpointConnectionError"), ∅).
Proof.
  split; [reflexivity|].
  destruct (listing_exception_ends_run json_size0 1 0
              (downloader (Some unreachable)) ∅
              (BotoCoreError "EndpointConnectionError") ∅
              [ListObjectsV2 "rd0cg4jfje" None] eq_refl) as (Hrun & _).
  by rewrite Hrun.
Defined.

Lemma count_events_app P tr1 tr2 :
  count_events P (tr1 ++ tr2) = count_events P tr1 + count_events P tr2.
Proof. unfold count_events. by rewrite filter_app, length_app. Qed.

Lemma count_events_nil P : count_events P [] = 0.
Proof. reflexivity. Qed.

Lemma count_events_cons P ev tr :
  count_events P (ev :: tr) = (if P ev then 1 else 0) + count_events P tr.
Proof.
  unfold count_events. rewrite filter_cons.
  destruct (P ev); by case_decide.
Qed.

Ltac count_requests :=
  rewrite ?count_events_app, ?count_events_cons, ?count_events_nil;
  cbn [is_list_request is_head_call is_transfer_call];
  lia.

Lemma count_events_listing P tr :
  (∀ ev, is_listing_event ev = true → P ev = false) →
  Forall (λ ev, is_listing_event ev = true) tr →
  count_events P tr = 0.
Proof.
  intros HP. induction 1 as [|ev tr Hev _ IH]; [done|].
  by rewrite count_events_cons, IH, (HP ev Hev).
Qed.

(** The requests of one call of [download_file]. *)
Lemma download_file_requests self key p fs :
  count_events is_list_request (download_file self key p fs).2 = 0
  ∧ count_events is_head_call (download_file self key p fs).2 ≤ 1
  ∧ count_events is_transfer_call (download_file self key p fs).2
    ≤ count_events is_head_call (download_file self key p fs).2.
Proof.
  unfold download_file. unfold_M.
  destruct (s3 self) as [c|]; simpl;
    [destruct (head_object c (bucket_name self) key) as [sz|e]; simpl;
     [destruct (s3_download_file c (bucket_name self) key p) as [w|e]; simpl;
      [destruct (fs !! p) as [[| |k]|]; simpl|]|]
    |];
    try destruct (is_ClientError e); simpl;
    count_requests.
Qed.

Lemma sync_object_requests js self obj s f fs :
  count_events is_list_request (sync_object js self obj (s, f) fs).2 = 0
  ∧ count_events is_head_call (sync_object js self obj (s, f) fs).2 ≤ 1
  ∧ count_events is_transfer_call (sync_object js self obj (s, f) fs).2
    ≤ count_events is_head_call (sync_object js self obj (s, f) fs).2.
Proof.
  destruct (up_to_date js fs self obj) eqn:Hutd.
  - rewrite (sync_object_skip _ _ _ _ _ _ Hutd). cbn [snd].
    count_requests.
  - pose proof (download_file_requests self (Key obj) (destination self obj)
                  fs) as Hreq.
    destruct (download_file_run self (Key obj) (destination self obj) fs)
      as (tr & Hrun & _).
    rewrite Hrun in Hreq. cbn [snd] in Hreq.
    rewrite (sync_object_download _ _ _ _ _ _ _ _ _ Hutd Hrun). cbn [snd].
    revert Hreq. count_requests.
Qed.

Lemma sync_loop_requests js self objs s f fs :
  count_events is_list_request (sync_loop js self objs (s, f) fs).2 = 0
  ∧ count_events is_head_call (sync_loop js self objs (s, f) fs).2
    ≤ length objs
  ∧ count_events is_transfer_call (sync_loop js self objs (s, f) fs).2
    ≤ count_events is_head_call (sync_loop js self objs (s, f) fs).2.
Proof.
  revert s f fs. induction objs as [|o objs IH]; intros s f fs.
  - cbn [sync_loop]. unfold mret, M_ret. cbn [snd length]. count_requests.
  - pose proof (sync_object_requests js self o s f fs) as Hreq.
    destruct (sync_object_run js self o s f fs) as (tr1 & Hrun1 & _).
    rewrite Hrun1 in Hreq. cbn [snd] in Hreq.
    cbn [sync_loop]. unfold mbind, M_bind. rewrite Hrun1.
    destruct (obj_ok js fs self o).
    + specialize (IH (S s) f (obj_files js fs self o)).
      destruct (sync_loop js self objs (S s, f) (obj_files js fs self o))
        as [[r fs2] tr2].
      cbn [snd length] in *. rewrite !count_events_app. lia.
    + specialize (IH s (S f) (obj_files js fs self o)).
      destruct (sync_loop js self objs (s, S f) (obj_files js fs self o))
        as [[r fs2] tr2].
      cbn [snd length] in *. rewrite !count_events_app. lia.
Qed.

(** The trace of a run over a listing, cut after the listing. *)
Lemma download_model_trace_split js fuel now self fs objs fs1 tr1 :
  list_bucket_contents fuel self fs = (Ret objs, fs1, tr1) →
  ∃ post,
    (download_model js fuel now self fs).2
    = ([Print (Msg_starting (bucket_name self));
        Print (Msg_saved_to (model_path self)); Makedirs (model_path self);
        Print Msg_listing] ++ tr1) ++ post
    ∧ count_events is_list_request post = 0
    ∧ count_events is_head_call post ≤ length objs
    ∧ count_events is_transfer_call post ≤ count_events is_head_call post.
Proof.
  intros Hlist.
  destruct (list_bucket_contents_files _ _ _ _ _ _ Hlist) as (-> & _ & _).
  destruct (decide (objs = [])) as [-> | Hne].
  - rewrite (download_model_empty js _ now _ _ _ _ Hlist). cbn [snd].
    exists [Print Msg_no_files]. split; [by rewrite <- !app_assoc|].
    cbn [length]. count_requests.
  - pose proof (sync_loop_requests js self objs 0 0 fs) as Hreq.
    destruct (sync_loop_run js self objs 0 0 fs) as (tr & Hloop & _).
    rewrite Hloop in Hreq. cbn [snd] in Hreq.
    unfold download_model. unfold_M. rewrite Hlist.
    destruct objs as [|o objs]; [done|].
    rewrite Hloop.
    destruct (is_directory _ _); cbn [snd]; eexists;
      (split; [rewrite <- !app_assoc; reflexivity|]);
      revert Hreq; cbn [length]; count_requests.
Qed.

(** X23. The listing is complete before the first object is handled: the
    trace of a run splits into a first part without any entry into
    [download_file], metadata call or transfer, and a second part without
    any page request. *)
Theorem listing_precedes_downloads js fuel now self fs objs fs1 tr1 :
  list_bucket_contents fuel self fs = (Ret objs, fs1, tr1) →
  ∃ pre post,
    (download_model js fuel now self fs).2 = pre ++ post
    ∧ Forall (λ ev, is_download_event ev = false) pre
    ∧ count_events is_list_request post = 0.
Proof.
  intros Hlist.
  destruct (download_model_trace_split js fuel now self fs objs fs1 tr1
              Hlist) as (post & Htr & Hnone & _).
  destruct (list_bucket_contents_files _ _ _ _ _ _ Hlist) as (_ & Hev & _).
  eexists _, post. split; [exact Htr|]. split; [|exact Hnone].
  apply Forall_app. split; [by repeat constructor|].
  by apply listing_no_download.
Qed.

Lemma listing_precedes_downloads_witness :
  list_bucket_contents 1 (downloader (Some colliding_store)) ∅
  = (Ret colliding, ∅, [ListObjectsV2 "rd0cg4jfje" None])
  ∧ ∃ pre post,
      (download_model json_size0 1 0 (downloader (Some colliding_store)) ∅).2
      = pre ++ post
      ∧ Forall (λ ev, is_download_event ev = false) pre
      ∧ count_events is_list_request post = 0.
Proof.
  split; [reflexivity|].
  exact (listing_precedes_downloads json_size0 1 0
           (downloader (Some colliding_store)) ∅ colliding ∅
           [ListObjectsV2 "rd0cg4jfje" None] eq_refl).
Defined.

(** X24. Nothing is retried: in a run over a listing of [n] objects the
    store is asked for metadata at most [n] times, and for a transfer no
    more often than for metadata. *)
Theorem no_request_retried js fuel now self fs objs fs1 tr1 :
  list_bucket_contents fuel self fs = (Ret objs, fs1, tr1) →
  count_events is_head_call (download_model js fuel now self fs).2
  ≤ length objs
  ∧ count_events is_transfer_call (download_model js fuel now self fs).2
    ≤ count_events is_head_call (download_model js fuel now self fs).2.
Proof.
  intros Hlist.
  destruct (download_model_trace_split js fuel now self fs objs fs1 tr1
              Hlist) as (post & Htr & _ & Hhead & Htransfer).
  destruct (list_bucket_contents_files _ _ _ _ _ _ Hlist) as (_ & Hev & _).
  assert (Hh : count_events is_head_call tr1 = 0).
  { apply count_events_listing; [|done]. by intros [[]| | | | |]. }
  assert (Ht : count_events is_transfer_call tr1 = 0).
  { apply count_events_listing; [|done]. by intros [[]| | | | |]. }
  rewrite Htr. revert Hhead Htransfer Hh Ht. count_requests.
Qed.

Lemma no_request_retried_witness :
  list_bucket_contents 1 (downloader (Some colliding_store)) ∅
  = (Ret colliding, ∅, [ListObjectsV2 "rd0cg4jfje" None])
  ∧ count_events is_head_call
      (download_model json_size0 1 0 (downloader (Some colliding_store)) ∅).2
    ≤ 2
  ∧ count_events is_transfer_call
      (download_model json_size0 1 0 (downloader (Some colliding_store)) ∅).2
    ≤ count_events is_head_call
        (download_model json_size0 1 0 (downloader (Some colliding_store))
           ∅).2.
Proof.
  split; [reflexivity|].
  exact (no_request_retried json_size0 1 0
           (downloader (Some colliding_store)) ∅ colliding ∅
           [ListObjectsV2 "rd0cg4jfje" None] eq_refl).
Defined.
